(** * The contour operator: resource catalog, bootstrap and lifecycle

  A shallow embedding of [internal/operator/operator.go] and the properties
  of its three entry points:

  - [GatewayAPIResources], the static list of Gateway API resources the
      operator reacts to;
  - [New], which builds the manager, registers the contour controller and
      builds the discovery REST mapper;
  - [Operator.Start], which runs the manager in a goroutine and waits in a
      [select] for the context to be done or for the manager to exit.

  Go's [error] interface is modelled as [option errobj] ([None] is [nil]);
  calls into other packages are recorded in a call log; the goroutine, the
  unbuffered channel and the [select] of [Start] are modelled by an
  interleaving step function over program counters. *)

From Stdlib Require Import String List Bool Arith Lia.
Import ListNotations.
Open Scope string_scope.

Set Implicit Arguments.
Set Warnings "-notation-for-abbreviation".

(* ===================================================================== *)
(** ** Types of the imported packages *)
(* ===================================================================== *)

(** [k8s.io/apimachinery/pkg/runtime/schema] *)
Module schema.

Record GroupVersion : Type := mkGroupVersion {
  gvGroup : string;
  gvVersion : string
}.

Record GroupVersionResource : Type := mkGroupVersionResource {
  Group : string;
  Version : string;
  Resource : string
}.

End schema.

(** Go error values.  An [errobj] is a non-nil error: either one made by a
  collaborating package (told apart by [ident], carrying its message), or a
  [fmt.wrapError] as made by [fmt.Errorf] with the [%w] verb. *)
Module goerr.

Inductive errobj : Type :=
| external (ident : nat) (msg : string)
| wrapError (msg : string) (err : errobj).

(** The interface type [error]; [nil] is [None]. *)
Definition error : Type := option errobj.
Definition nil : error := None.

(** The method [Error() string]. *)
Definition Error (e : errobj) : string :=
  match e with
  | external _ m => m
  | wrapError m _ => m
  end.

(** [errors.Unwrap]. *)
Definition Unwrap (e : errobj) : error :=
  match e with
  | external _ _ => None
  | wrapError _ inner => Some inner
  end.

(** [fmt.Errorf(prefix + "%w", err)]: the message is the prefix followed by
      the message of [err], and [err] is kept as the wrapped error. *)
Definition Errorf_w (prefix : string) (err : errobj) : errobj :=
  wrapError (prefix ++ Error err) err.

(** Number of [wrapError] layers above the innermost error. *)
Fixpoint depth (e : errobj) : nat :=
  match e with
  | external _ _ => 0
  | wrapError _ inner => S (depth inner)
  end.

End goerr.
Import goerr.

(** [sigs.k8s.io/controller-runtime/pkg/client]: a [client.Object] value
  such as [&gatewayv1alpha1.Gateway{}] is an empty object standing for its
  Go type, named here by import path and type name. *)
Module client.

Record Object : Type := mkObject {
  pkgPath : string;
  typeName : string
}.

Definition Object_eqb (a b : Object) : bool :=
  String.eqb (pkgPath a) (pkgPath b) && String.eqb (typeName a) (typeName b).

End client.

Module operatorv1alpha1.
Definition Contour : client.Object :=
  client.mkObject "github.com/projectcontour/contour-operator/api/v1alpha1" "Contour".
End operatorv1alpha1.

Module gatewayv1alpha1.
Definition pkg : string := "sigs.k8s.io/gateway-api/apis/v1alpha1".
Definition GatewayClass : client.Object := client.mkObject pkg "GatewayClass".
Definition Gateway : client.Object := client.mkObject pkg "Gateway".
End gatewayv1alpha1.

Module apiextensionsv1.
Definition CustomResourceDefinition : client.Object :=
  client.mkObject "k8s.io/apiextensions-apiserver/pkg/apis/apiextensions/v1"
                    "CustomResourceDefinition".
End apiextensionsv1.

(** [internal/config]: the fields of [config.Config] that [New] reads. *)
Module config.

Record Config : Type := mkConfig {
  ContourImage : string;
  EnvoyImage : string;
  MetricsBindAddress : string;
  LeaderElection : bool;
  LeaderElectionID : string
}.

End config.

(** [sigs.k8s.io/controller-runtime/pkg/manager]: the fields of
  [manager.Options] that [New] sets. *)
Module manager.

Record Options (Scheme : Type) : Type := mkOptions {
  Scheme_ : Scheme;
  LeaderElection : bool;
  LeaderElectionID : string;
  MetricsBindAddress : string;
  ClientDisableCacheFor : list client.Object
}.

End manager.

(** [internal/controller]: the configuration handed to [controller.New]. *)
Module controller.

Record Config : Type := mkConfig {
  ContourImage : string;
  EnvoyImage : string
}.

End controller.

Definition operatorName : string := "contour_operator".


(* ===================================================================== *)
(** ** Package operator *)
(* ===================================================================== *)

Section Operator.

(** Types owned by the imported packages; the operator only passes their
  values around. *)
Variables rest_Config Scheme Manager Controller client_Client meta_RESTMapper
          logr_Logger : Type.

(** [gatewayv1alpha1.GroupVersion], the group and version under which the
  Gateway API types are registered. *)
Variable gatewayv1alpha1_GroupVersion : schema.GroupVersion.

(** [GetOperatorScheme()], [controller_runtime.Log], [Logger.WithName] and
  [Manager.GetClient]: read-only values taken from the other packages. *)
Variable GetOperatorScheme : Scheme.
Variable controller_runtime_Log : logr_Logger.
Variable WithName : logr_Logger -> string -> logr_Logger.
Variable GetClient : Manager -> client_Client.

(** *** GatewayAPIResources *)

Definition GatewayAPIResources : list schema.GroupVersionResource :=
  [ {| schema.Group := schema.gvGroup gatewayv1alpha1_GroupVersion;
       schema.Version := schema.gvVersion gatewayv1alpha1_GroupVersion;
       schema.Resource := "gatewayclasses" |};
    {| schema.Group := schema.gvGroup gatewayv1alpha1_GroupVersion;
       schema.Version := schema.gvVersion gatewayv1alpha1_GroupVersion;
       schema.Resource := "gateways" |};
    {| schema.Group := schema.gvGroup gatewayv1alpha1_GroupVersion;
       schema.Version := schema.gvVersion gatewayv1alpha1_GroupVersion;
       schema.Resource := "httproutes" |};
    {| schema.Group := schema.gvGroup gatewayv1alpha1_GroupVersion;
       schema.Version := schema.gvVersion gatewayv1alpha1_GroupVersion;
       schema.Resource := "tlsroutes" |} ].

(** *** The operator and its clients *)

Record Client : Type := mkClient {
  Client_Client : client_Client;
  Client_RESTMapper : meta_RESTMapper
}.

Record Operator : Type := mkOperator {
  op_client : Client;
  op_manager : Manager;
  op_log : logr_Logger;
  op_config : config.Config
}.

(** *** Calls into the collaborating packages

  [New] makes three calls that reach outside the package.  What each
  returns is given by a [World]; that it was made, and with which
  arguments, is appended to a call log threaded through [New]. *)

Inductive Call : Type :=
| CallNewManager (cfg : rest_Config) (opts : manager.Options Scheme)
| CallControllerNew (mgr : Manager) (cfg : controller.Config)
| CallNewDiscoveryRESTMapper (cfg : rest_Config).

Record World : Type := mkWorld {
  controller_runtime_NewManager :
    rest_Config -> manager.Options Scheme -> Manager + errobj;
  controller_New : Manager -> controller.Config -> Controller + errobj;
  apiutil_NewDiscoveryRESTMapper : rest_Config -> meta_RESTMapper + errobj
}.

(** The call-log monad. *)
Definition M (A : Type) : Type := list Call -> A * list Call.

Definition ret {A : Type} (a : A) : M A := fun log => (a, log).

Definition bind {A B : Type} (m : M A) (k : A -> M B) : M B :=
  fun log => let (a, log') := m log in k a log'.

Definition call {A : Type} (c : Call) (outcome : A) : M A :=
  fun log => (outcome, (log ++ [c])%list).

Definition runM {A : Type} (m : M A) : A * list Call := m [].

Notation "x <- m ;; k" := (bind m (fun x => k))
  (at level 61, m at next level, right associativity).

Definition NewManager (w : World) (cfg : rest_Config)
    (opts : manager.Options Scheme) : M (Manager + errobj) :=
  call (CallNewManager cfg opts) (controller_runtime_NewManager w cfg opts).

Definition ControllerNew (w : World) (mgr : Manager)
    (cfg : controller.Config) : M (Controller + errobj) :=
  call (CallControllerNew mgr cfg) (controller_New w mgr cfg).

Definition NewDiscoveryRESTMapper (w : World) (cfg : rest_Config)
    : M (meta_RESTMapper + errobj) :=
  call (CallNewDiscoveryRESTMapper cfg) (apiutil_NewDiscoveryRESTMapper w cfg).

(** *** New *)

(** The objects listed in [ClientDisableCacheFor]. *)
Definition nonCached : list client.Object :=
  [ operatorv1alpha1.Contour; gatewayv1alpha1.GatewayClass;
    gatewayv1alpha1.Gateway; apiextensionsv1.CustomResourceDefinition ].

Definition mgrOpts (opCfg : config.Config) : manager.Options Scheme :=
  {| manager.Scheme_ := GetOperatorScheme;
     manager.LeaderElection := config.LeaderElection opCfg;
     manager.LeaderElectionID := config.LeaderElectionID opCfg;
     manager.MetricsBindAddress := config.MetricsBindAddress opCfg;
     manager.ClientDisableCacheFor := nonCached |}.

(** [New] returns Go's pair of an [Operator] pointer and an [error]: a [nil]
  pointer is [None], a [nil] error is [None]. *)
Definition New (w : World) (cliCfg : rest_Config) (opCfg : config.Config)
    : M (option Operator * error) :=
  r <- NewManager w cliCfg (mgrOpts opCfg) ;;
  match r with
  | inr err => ret (None, Some (Errorf_w "failed to create manager: " err))
  | inl mgr =>
    c <- ControllerNew w mgr
           {| controller.ContourImage := config.ContourImage opCfg;
              controller.EnvoyImage := config.EnvoyImage opCfg |} ;;
    match c with
    | inr err =>
      ret (None, Some (Errorf_w "failed to create contour controller: " err))
    | inl _ =>
      d <- NewDiscoveryRESTMapper w cliCfg ;;
      match d with
      | inr err => ret (None, Some err)
      | inl restMapper =>
        ret (Some {| op_manager := mgr;
                     op_client := mkClient (GetClient mgr) restMapper;
                     op_log := WithName controller_runtime_Log operatorName;
                     op_config := opCfg |},
             None)
      end
    end
  end.

(** What a run of [New] returned and which calls it made, in order. *)
Definition New_result (w : World) (cliCfg : rest_Config)
    (opCfg : config.Config) : option Operator * error :=
  fst (runM (New w cliCfg opCfg)).

Definition New_calls (w : World) (cliCfg : rest_Config)
    (opCfg : config.Config) : list Call :=
  snd (runM (New w cliCfg opCfg)).

Definition is_CallControllerNew (c : Call) : bool :=
  match c with CallControllerNew _ _ => true | _ => false end.

Definition is_CallNewManager (c : Call) : bool :=
  match c with CallNewManager _ _ => true | _ => false end.

Definition is_CallNewDiscoveryRESTMapper (c : Call) : bool :=
  match c with CallNewDiscoveryRESTMapper _ => true | _ => false end.

End Operator.


(* ===================================================================== *)
(** ** Operator.Start *)
(* ===================================================================== *)

(** [Start] runs two execution contexts: the caller's, which makes the
  channel, spawns the goroutine and waits in the [select]; and the
  goroutine's, which evaluates [o.manager.Start(ctx)] and then sends the
  value on [errChan].  The model keeps one program counter for each, the
  state of [ctx.Done()], and the values received from [errChan] so far.

  [errChan] is made by [make(chan error)], so it has no buffer: a send is
  completed only together with a receive.  Its only receive is the second
  case of the [select]. *)
Module Start.

(** Where the caller of [Start] is. *)
Inductive main_pc : Type :=
| AtMakeChan                 (* errChan := make(chan error) *)
| AtGo                       (* go func() { ... }() *)
| AtSelect                   (* select { ... } *)
| Returned (r : error).      (* return r *)

(** Where the goroutine is. *)
Inductive goroutine_pc : Type :=
| NotStarted                 (* the go statement was not executed yet *)
| InManagerStart             (* evaluating o.manager.Start(ctx) *)
| AtSend (v : error)         (* blocked in errChan <- v *)
| Finished.                  (* the send completed, the function returned *)

Record state : Type := mkState {
  main : main_pc;
  goroutine : goroutine_pc;
  ctxDone : bool;            (* ctx.Done() is closed *)
  received : list error      (* values received from errChan, oldest first *)
}.

(** What can happen next.  [Cancel] and [ManagerReturns] belong to the
  environment: the context is cancelled from outside, and the manager's
  event loop returns what and when it decides to. *)
Inductive event : Type :=
| Cancel                     (* ctx is cancelled *)
| MakeChan                   (* the caller executes make(chan error) *)
| Go                         (* the caller executes the go statement *)
| ManagerReturns (v : error) (* o.manager.Start(ctx) returns v *)
| SelectDone                 (* select takes case <-ctx.Done() *)
| SelectErr.                 (* select takes case err := <-errChan *)

Definition init (ctx_done : bool) : state :=
  {| main := AtMakeChan; goroutine := NotStarted;
     ctxDone := ctx_done; received := [] |}.

(** One step; [None] when the event cannot happen in that state. *)
Definition step (s : state) (ev : event) : option state :=
  match ev with
  | Cancel =>
    Some {| main := main s; goroutine := goroutine s;
            ctxDone := true; received := received s |}
  | MakeChan =>
    match main s with
    | AtMakeChan =>
      Some {| main := AtGo; goroutine := goroutine s;
              ctxDone := ctxDone s; received := received s |}
    | _ => None
    end
  | Go =>
    match main s, goroutine s with
    | AtGo, NotStarted =>
      Some {| main := AtSelect; goroutine := InManagerStart;
              ctxDone := ctxDone s; received := received s |}
    | _, _ => None
    end
  | ManagerReturns v =>
    match goroutine s with
    | InManagerStart =>
      Some {| main := main s; goroutine := AtSend v;
              ctxDone := ctxDone s; received := received s |}
    | _ => None
    end
  | SelectDone =>
    match main s with
    | AtSelect =>
      if ctxDone s
      then Some {| main := Returned nil; goroutine := goroutine s;
                   ctxDone := ctxDone s; received := received s |}
      else None
    | _ => None
    end
  | SelectErr =>
    match main s, goroutine s with
    | AtSelect, AtSend err =>
      Some {| main := Returned err; goroutine := Finished;
              ctxDone := ctxDone s; received := (received s ++ [err])%list |}
    | _, _ => None
    end
  end.

(** Running a schedule, event by event. *)
Fixpoint run (s : state) (sched : list event) : option state :=
  match sched with
  | [] => Some s
  | ev :: rest =>
    match step s ev with
    | Some s' => run s' rest
    | None => None
    end
  end.

(** The caller's context is live until [Start] returns; the goroutine's from
  the [go] statement until its function returns. *)
Definition main_live (s : state) : bool :=
  match main s with Returned _ => false | _ => true end.

Definition goroutine_live (s : state) : bool :=
  match goroutine s with
  | InManagerStart | AtSend _ => true
  | NotStarted | Finished => false
  end.

Definition live_contexts (s : state) : nat :=
  (if main_live s then 1 else 0) + (if goroutine_live s then 1 else 0).

(** The value waiting in a blocked send on [errChan], if any. *)
Definition offered (s : state) : list error :=
  match goroutine s with AtSend v => [v] | _ => [] end.

(** Summaries of a schedule. *)
Fixpoint returns_of (sched : list event) : list error :=
  match sched with
  | [] => []
  | ManagerReturns v :: rest => v :: returns_of rest
  | _ :: rest => returns_of rest
  end.

Definition is_Cancel (ev : event) : bool :=
  match ev with Cancel => true | _ => false end.

Definition is_SelectDone (ev : event) : bool :=
  match ev with SelectDone => true | _ => false end.

Definition is_SelectErr (ev : event) : bool :=
  match ev with SelectErr => true | _ => false end.

(** What holds of every state reached from [init ctx0] by [sched]. *)
Definition shape (ctx0 : bool) (sched : list event) (s : state) : Prop :=
  ctxDone s = ctx0 || existsb is_Cancel sched /\
  match main s, goroutine s with
  | AtMakeChan, NotStarted | AtGo, NotStarted | AtSelect, InManagerStart =>
    received s = [] /\ returns_of sched = [] /\
    existsb is_SelectDone sched = false /\ existsb is_SelectErr sched = false
  | AtSelect, AtSend v =>
    received s = [] /\ returns_of sched = [v] /\
    existsb is_SelectDone sched = false /\ existsb is_SelectErr sched = false
  | Returned r, InManagerStart =>
    r = nil /\ ctxDone s = true /\ received s = [] /\ returns_of sched = [] /\
    existsb is_SelectDone sched = true /\ existsb is_SelectErr sched = false
  | Returned r, AtSend v =>
    r = nil /\ ctxDone s = true /\ received s = [] /\ returns_of sched = [v] /\
    existsb is_SelectDone sched = true /\ existsb is_SelectErr sched = false
  | Returned r, Finished =>
    received s = [r] /\ returns_of sched = [r] /\
    existsb is_SelectDone sched = false /\ existsb is_SelectErr sched = true
  | _, _ => False
  end.

End Start.


(* ===================================================================== *)
(** ** Sample worlds *)
(* ===================================================================== *)

(** Concrete collaborators on which the statements below are exercised:
  cluster configurations are host names, managers, controllers, clients and
  REST mappers are numbered handles, a logger is its name. *)
Module Sample.

Definition cliCfg : string := "https://10.0.0.1:6443".

Definition opCfg : config.Config :=
  {| config.ContourImage := "docker.io/projectcontour/contour:main";
     config.EnvoyImage := "docker.io/envoyproxy/envoy:v1.19.1";
     config.MetricsBindAddress := ":8080";
     config.LeaderElection := true;
     config.LeaderElectionID := "0d879e31.projectcontour.io" |}.

Definition W : Type := World string unit nat nat nat.

Definition refused : errobj := external 7 "connection refused".
Definition duplicate : errobj := external 8 "controller already registered".
Definition noScheme : errobj := external 9 "scheme is not set".

(** Every call succeeds. *)
Definition allGood : W :=
  mkWorld (fun _ _ => inl 1) (fun _ _ => inl 2) (fun _ => inl 3).

(** Building the manager fails. *)
Definition managerFails : W :=
  mkWorld (fun _ _ => inr noScheme) (fun _ _ => inl 2) (fun _ => inl 3).

(** Registering the controller fails. *)
Definition controllerFails : W :=
  mkWorld (fun _ _ => inl 1) (fun _ _ => inr duplicate) (fun _ => inl 3).

(** Discovery fails. *)
Definition discoveryFails : W :=
  mkWorld (fun _ _ => inl 1) (fun _ _ => inl 2) (fun _ => inr refused).

Definition New (w : W)
    : M string unit nat (option (Operator nat nat nat string) * error) :=
  New tt "" (fun l n => (l ++ n)%string) (fun mgr : nat => mgr + 100)
      w cliCfg opCfg.

Definition result (w : W) : option (Operator nat nat nat string) * error :=
  fst (runM (New w)).

Definition calls (w : W) : list (Call string unit nat) :=
  snd (runM (New w)).

Definition gv : schema.GroupVersion :=
  schema.mkGroupVersion "networking.x-k8s.io" "v1alpha1".

(** Schedules of [Start]: the manager fails before any cancellation; the
  manager exits cleanly before any cancellation; the context is cancelled
  while the manager runs. *)
Definition failing : list Start.event :=
  [Start.MakeChan; Start.Go; Start.ManagerReturns (Some refused)].

Definition exiting : list Start.event :=
  [Start.MakeChan; Start.Go; Start.ManagerReturns nil].

Definition cancelled : list Start.event :=
  [Start.MakeChan; Start.Go; Start.Cancel].

(** The caller waits in the [select]; the goroutine is where [g] says. *)
Definition waiting (g : Start.goroutine_pc) (done : bool) : Start.state :=
  {| Start.main := Start.AtSelect; Start.goroutine := g;
     Start.ctxDone := done; Start.received := [] |}.

(** More schedules: the manager fails and the context is cancelled before
  the [select] is left; the same, and the cancellation case is taken; the
  manager fails and the channel case is taken; the context is cancelled on
  entry and the cancellation case is taken. *)
Definition raced : list Start.event :=
  [Start.MakeChan; Start.Go; Start.ManagerReturns (Some refused);
   Start.Cancel].

Definition dropped : list Start.event :=
  [Start.MakeChan; Start.Go; Start.ManagerReturns (Some refused);
   Start.Cancel; Start.SelectDone].

Definition failed : list Start.event :=
  [Start.MakeChan; Start.Go; Start.ManagerReturns (Some refused);
   Start.SelectErr].

Definition stopped : list Start.event :=
  [Start.MakeChan; Start.Go; Start.SelectDone].

(** [Start] has returned [r]; the goroutine is where [g] says. *)
Definition returned (r : error) (g : Start.goroutine_pc) (done : bool)
    (rs : list error) : Start.state :=
  {| Start.main := Start.Returned r; Start.goroutine := g;
     Start.ctxDone := done; Start.received := rs |}.

End Sample.


(* ===================================================================== *)
(** ** Start over a channel with a buffer *)
(* ===================================================================== *)

(** A second model of [Start], in which [errChan] has a buffer of [cap]
  slots, to compare the channel the specification speaks of with the one
  the source makes.  With one slot it is the single-slot channel of the
  specification; with none it is [make(chan error)].  A send on a channel
  with a free slot completes at once, without any receive, and the
  goroutine's function returns; a receive takes the oldest buffered value
  if there is one, and otherwise meets a blocked sender as in [Start.step].
  All other events are those of [Start.step]. *)
Module Slotted.

Record state : Type := mkState {
  base : Start.state;
  buffer : list error        (* values sent and not yet received *)
}.

Inductive event : Type :=
| Of (ev : Start.event)      (* an event of Start.step *)
| SendCompletes.             (* the send completes into a free slot *)

(** The capacity of the channel made by [errChan := make(chan error)]: the
  call has no size argument. *)
Definition errChan_capacity : nat := 0.

(** The capacity of the channel in the words of the specification. *)
Definition single_slot : nat := 1.

Definition lift (s : Start.state) : state :=
  {| base := s; buffer := [] |}.

Definition with_buffer (b : list error) (s : option Start.state)
    : option state :=
  match s with
  | Some s' => Some {| base := s'; buffer := b |}
  | None => None
  end.

Definition step (cap : nat) (s : state) (ev : event) : option state :=
  match ev with
  | SendCompletes =>
    match Start.goroutine (base s) with
    | Start.AtSend v =>
      if Nat.ltb (length (buffer s)) cap
      then Some {| base := {| Start.main := Start.main (base s);
                              Start.goroutine := Start.Finished;
                              Start.ctxDone := Start.ctxDone (base s);
                              Start.received := Start.received (base s) |};
                   buffer := (buffer s ++ [v])%list |}
      else None
    | _ => None
    end
  | Of Start.SelectErr =>
    match buffer s with
    | v :: rest =>
      match Start.main (base s) with
      | Start.AtSelect =>
        Some {| base := {| Start.main := Start.Returned v;
                           Start.goroutine := Start.goroutine (base s);
                           Start.ctxDone := Start.ctxDone (base s);
                           Start.received :=
                             (Start.received (base s) ++ [v])%list |};
                buffer := rest |}
      | _ => None
      end
    | [] => with_buffer [] (Start.step (base s) Start.SelectErr)
    end
  | Of ev' => with_buffer (buffer s) (Start.step (base s) ev')
  end.

End Slotted.


(* ===================================================================== *)
(** ** The caller's statements in a schedule *)
(* ===================================================================== *)

(** The events of a schedule that are statements of [Start] itself, in the
  order they were executed; [Cancel] and [ManagerReturns] are left out. *)
Module Schedule.

Definition is_caller_event (ev : Start.event) : bool :=
  match ev with
  | Start.MakeChan | Start.Go | Start.SelectDone | Start.SelectErr => true
  | Start.Cancel | Start.ManagerReturns _ => false
  end.

Definition caller_events (sched : list Start.event) : list Start.event :=
  filter is_caller_event sched.

(** The statements [Start] has executed when it is in state [s]. *)
Definition executed (s : Start.state) : list Start.event :=
  match Start.main s, Start.goroutine s with
  | Start.AtMakeChan, _ => []
  | Start.AtGo, _ => [Start.MakeChan]
  | Start.AtSelect, _ => [Start.MakeChan; Start.Go]
  | Start.Returned _, Start.Finished =>
    [Start.MakeChan; Start.Go; Start.SelectErr]
  | Start.Returned _, _ => [Start.MakeChan; Start.Go; Start.SelectDone]
  end.

End Schedule.


(* ===================================================================== *)
(** ** The RBAC markers *)
(* ===================================================================== *)

(** The [+kubebuilder:rbac] markers above [New], one rule per marker, in
  the order of the file: the API group, the resources and the verbs. *)
Module rbac.

Record Rule : Type := mkRule {
  groups : string;
  resources : list string;
  verbs : list string
}.

Definition core : string := EmptyString.

Definition markers : list Rule :=
  [ mkRule "operator.projectcontour.io" ["contours"]
           ["get"; "list"; "watch"; "update"];
    mkRule "operator.projectcontour.io" ["contours/status"]
           ["get"; "update"; "patch"];
    mkRule core ["namespaces"; "secrets"; "serviceaccounts"; "services"]
           ["get"; "list"; "watch"; "delete"; "create"; "update"];
    mkRule core ["configmaps"]
           ["get"; "list"; "watch"; "delete"; "create"; "update"];
    mkRule core ["endpoints"] ["get"; "list"; "watch"];
    mkRule "coordination.k8s.io" ["leases"]
           ["get"; "list"; "watch"; "create"; "update"];
    mkRule "networking.x-k8s.io"
           ["gatewayclasses"; "gateways"; "backendpolicies"; "httproutes";
            "tlsroutes"]
           ["get"; "list"; "watch"; "update"];
    mkRule "networking.x-k8s.io"
           ["gatewayclasses/status"; "gateways/status";
            "backendpolicies/status"; "httproutes/status"; "tlsroutes/status"]
           ["create"; "get"; "update"];
    mkRule "networking.x-k8s.io" ["udproutes"; "tcproutes"]
           ["get"; "list"; "watch"];
    mkRule "networking.x-k8s.io" ["udproutes/status"; "tcproutes/status"]
           ["update"];
    mkRule "networking.k8s.io" ["ingresses"; "ingressclasses"]
           ["get"; "list"; "watch"];
    mkRule "networking.k8s.io" ["ingresses/status"]
           ["create"; "get"; "update"];
    mkRule "projectcontour.io"
           ["httpproxies"; "tlscertificatedelegations"; "extensionservices";
            "contourconfigurations"]
           ["get"; "list"; "watch"];
    mkRule "projectcontour.io"
           ["httpproxies/status"; "extensionservices/status";
            "contourconfigurations/status"]
           ["create"; "get"; "update"];
    mkRule "rbac.authorization.k8s.io"
           ["clusterroles"; "clusterrolebindings"; "roles"; "rolebindings"]
           ["get"; "list"; "delete"; "create"; "update"; "watch"];
    mkRule core ["configmaps"]
           ["get"; "list"; "watch"; "delete"; "create"; "update"];
    mkRule "batch" ["jobs"]
           ["get"; "list"; "watch"; "delete"; "create"; "update"];
    mkRule "apps" ["deployments"]
           ["get"; "list"; "watch"; "delete"; "create"; "update"];
    mkRule "apps" ["daemonsets"]
           ["get"; "list"; "watch"; "delete"; "create"; "update"];
    mkRule "apiextensions.k8s.io" ["customresourcedefinitions"]
           ["get"; "list"] ].

(** A rule grants a verb on a resource of a group when it names all three. *)
Definition grants (rule : Rule) (group resource verb : string) : bool :=
  String.eqb (groups rule) group &&
  existsb (String.eqb resource) (resources rule) &&
  existsb (String.eqb verb) (verbs rule).

(** The role made of the markers allows what one of its rules grants. *)
Definition allowed (group resource verb : string) : bool :=
  existsb (fun rule => grants rule group resource verb) markers.

End rbac.


(* ===================================================================== *)
(** ** Facts about GatewayAPIResources *)
(* ===================================================================== *)

Section CatalogFacts.

Variable gv : schema.GroupVersion.

Lemma GatewayAPIResources_resources :
  map schema.Resource (GatewayAPIResources gv) =
  ["gatewayclasses"; "gateways"; "httproutes"; "tlsroutes"].
Proof. reflexivity. Qed.

Lemma In_GatewayAPIResources (r : schema.GroupVersionResource) :
  In r (GatewayAPIResources gv) ->
  exists name,
    In name ["gatewayclasses"; "gateways"; "httproutes"; "tlsroutes"] /\
    r = schema.mkGroupVersionResource (schema.gvGroup gv) (schema.gvVersion gv) name.
Proof.
  unfold GatewayAPIResources; intros H.
  repeat (destruct H as [H | H];
          [ subst r; eexists; split; [ | reflexivity ]; simpl; tauto | ]).
  destruct H.
Qed.

(** C1: whatever group and version the Gateway API package registers, the
  catalog is the same sequence of exactly four descriptors, whose resources
  are gatewayclasses, gateways, httproutes and tlsroutes in that order,
  without repetition; udproutes and tcproutes are not among them. *)
Theorem GatewayAPIResources_catalog :
  GatewayAPIResources gv =
    map (schema.mkGroupVersionResource (schema.gvGroup gv) (schema.gvVersion gv))
        ["gatewayclasses"; "gateways"; "httproutes"; "tlsroutes"] /\
  length (GatewayAPIResources gv) = 4 /\
  NoDup (map schema.Resource (GatewayAPIResources gv)) /\
  ~ In "udproutes" (map schema.Resource (GatewayAPIResources gv)) /\
  ~ In "tcproutes" (map schema.Resource (GatewayAPIResources gv)).
Proof.
  rewrite GatewayAPIResources_resources.
  split; [ reflexivity | ].
  split; [ reflexivity | ].
  split.
  - repeat constructor; simpl; intuition discriminate.
  - split; simpl; intuition discriminate.
Qed.

(** C9: every descriptor of the catalog carries the group and the version of
  [gatewayv1alpha1.GroupVersion]; two descriptors of the catalog agree on
  group and version, and are equal as soon as their resources are. *)
Theorem GatewayAPIResources_same_group_version
    (r1 r2 : schema.GroupVersionResource) :
  In r1 (GatewayAPIResources gv) ->
  In r2 (GatewayAPIResources gv) ->
  schema.Group r1 = schema.gvGroup gv /\
  schema.Version r1 = schema.gvVersion gv /\
  schema.Group r1 = schema.Group r2 /\
  schema.Version r1 = schema.Version r2 /\
  (schema.Resource r1 = schema.Resource r2 -> r1 = r2).
Proof.
  intros H1 H2.
  destruct (In_GatewayAPIResources H1) as [n1 [_ ->]].
  destruct (In_GatewayAPIResources H2) as [n2 [_ ->]].
  simpl. repeat split; try reflexivity.
  intros ->. reflexivity.
Qed.

End CatalogFacts.


(* ===================================================================== *)
(** ** Facts about New *)
(* ===================================================================== *)

Ltac unfold_New :=
  unfold New_result, New_calls, runM, New, bind, NewManager, ControllerNew,
    NewDiscoveryRESTMapper, call, ret.

Section NewFacts.

Variables rest_Config Scheme Manager Controller client_Client meta_RESTMapper
          logr_Logger : Type.
Variable GetOperatorScheme : Scheme.
Variable controller_runtime_Log : logr_Logger.
Variable WithName : logr_Logger -> string -> logr_Logger.
Variable GetClient : Manager -> client_Client.

Variable w : World rest_Config Scheme Manager Controller meta_RESTMapper.
Variable cliCfg : rest_Config.
Variable opCfg : config.Config.

(** The arguments [New] passes on, its result and its call log. *)
Local Notation opts := (mgrOpts GetOperatorScheme opCfg).

Local Notation ctlCfg :=
  {| controller.ContourImage := config.ContourImage opCfg;
     controller.EnvoyImage := config.EnvoyImage opCfg |}.

Local Notation result :=
  (New_result GetOperatorScheme controller_runtime_Log WithName GetClient
              w cliCfg opCfg).

Local Notation calls :=
  (New_calls GetOperatorScheme controller_runtime_Log WithName GetClient
             w cliCfg opCfg).

Local Notation callManager := (CallNewManager Manager cliCfg opts).
Local Notation callController mgr :=
  (CallControllerNew rest_Config Scheme mgr ctlCfg).
Local Notation callDiscovery :=
  (CallNewDiscoveryRESTMapper Scheme Manager cliCfg).

(** One lemma per return statement of [New]. *)

Lemma New_manager_failed (e : errobj) :
  controller_runtime_NewManager w cliCfg opts = inr e ->
  result = (None, Some (Errorf_w "failed to create manager: " e)) /\
  calls = [callManager].
Proof. intros Hmgr. unfold_New. rewrite Hmgr. split; reflexivity. Qed.

Lemma New_controller_failed (mgr : Manager) (e : errobj) :
  controller_runtime_NewManager w cliCfg opts = inl mgr ->
  controller_New w mgr ctlCfg = inr e ->
  result = (None, Some (Errorf_w "failed to create contour controller: " e)) /\
  calls = [callManager; callController mgr].
Proof.
  intros Hmgr Hctl. unfold_New. rewrite Hmgr, Hctl. split; reflexivity.
Qed.

Lemma New_discovery_failed (mgr : Manager) (c : Controller) (e : errobj) :
  controller_runtime_NewManager w cliCfg opts = inl mgr ->
  controller_New w mgr ctlCfg = inl c ->
  apiutil_NewDiscoveryRESTMapper w cliCfg = inr e ->
  result = (None, Some e) /\
  calls = [callManager; callController mgr; callDiscovery].
Proof.
  intros Hmgr Hctl Hdisc. unfold_New. rewrite Hmgr, Hctl, Hdisc.
  split; reflexivity.
Qed.

Lemma New_succeeded (mgr : Manager) (c : Controller)
    (restMapper : meta_RESTMapper) :
  controller_runtime_NewManager w cliCfg opts = inl mgr ->
  controller_New w mgr ctlCfg = inl c ->
  apiutil_NewDiscoveryRESTMapper w cliCfg = inl restMapper ->
  result = (Some {| op_manager := mgr;
                    op_client := mkClient (GetClient mgr) restMapper;
                    op_log := WithName controller_runtime_Log operatorName;
                    op_config := opCfg |}, None) /\
  calls = [callManager; callController mgr; callDiscovery].
Proof.
  intros Hmgr Hctl Hdisc. unfold_New. rewrite Hmgr, Hctl, Hdisc.
  split; reflexivity.
Qed.

(** Every run of [New] is one of the four. *)
Lemma New_cases :
  (exists e, controller_runtime_NewManager w cliCfg opts = inr e) \/
  (exists mgr e,
     controller_runtime_NewManager w cliCfg opts = inl mgr /\
     controller_New w mgr ctlCfg = inr e) \/
  (exists mgr c e,
     controller_runtime_NewManager w cliCfg opts = inl mgr /\
     controller_New w mgr ctlCfg = inl c /\
     apiutil_NewDiscoveryRESTMapper w cliCfg = inr e) \/
  (exists mgr c restMapper,
     controller_runtime_NewManager w cliCfg opts = inl mgr /\
     controller_New w mgr ctlCfg = inl c /\
     apiutil_NewDiscoveryRESTMapper w cliCfg = inl restMapper).
Proof.
  destruct (controller_runtime_NewManager w cliCfg opts) as [mgr | e] eqn:Hmgr;
    [ | left; eauto ].
  destruct (controller_New w mgr ctlCfg) as [c | e] eqn:Hctl;
    [ | right; left; eauto ].
  destruct (apiutil_NewDiscoveryRESTMapper w cliCfg) as [rm | e] eqn:Hdisc;
    [ right; right; right | right; right; left ]; eauto 8.
Qed.



(** The discovery path of [New]: when building the REST mapper fails with
  [e], the manager having been built and the controller registered
  before, [New]
  returns a nil operator together with [e] itself, the same error value
  with its message unchanged and no layer added, where the two earlier
  phases return their error under a phase prefix; and it makes exactly the
  three calls, the discovery call once and last. *)
Theorem New_discovery_failure_verbatim
    (mgr : Manager) (c : Controller) (e : errobj) :
  controller_runtime_NewManager w cliCfg opts = inl mgr ->
  controller_New w mgr ctlCfg = inl c ->
  apiutil_NewDiscoveryRESTMapper w cliCfg = inr e ->
  result = (None, Some e) /\
  (forall err, snd result = Some err ->
     err = e /\ Error err = Error e /\ depth err = depth e) /\
  calls = [callManager; callController mgr; callDiscovery].
Proof.
  intros Hmgr Hctl Hdisc.
  destruct (New_discovery_failed Hmgr Hctl Hdisc) as [R L].
  rewrite R, L. split; [ reflexivity | split ].
  - simpl. intros err [= <-]. repeat split.
  - reflexivity.
Qed.

(** C6, as far as the code does it by design: in every run of [New] that
  reaches the discovery call and sees it fail, the manager was built and
  the controller was registered on it, successfully and once each, before
  that call; the discovery call is the last call, and [New] returns a nil
  operator and a non-nil error. *)
Theorem New_discovery_follows_registration (e : errobj) :
  existsb (@is_CallNewDiscoveryRESTMapper _ _ _) calls = true ->
  apiutil_NewDiscoveryRESTMapper w cliCfg = inr e ->
  exists mgr c,
    controller_runtime_NewManager w cliCfg opts = inl mgr /\
    controller_New w mgr ctlCfg = inl c /\
    calls = [callManager; callController mgr; callDiscovery] /\
    fst result = None /\
    snd result <> None.
Proof.
  intros Hcall Hdisc.
  destruct New_cases as [[e' H] | [(mgr & e' & H1 & H2) |
    [(mgr & c & e' & H1 & H2 & H3) | (mgr & c & rm & H1 & H2 & H3)]]].
  - destruct (New_manager_failed H) as [_ L].
    rewrite L in Hcall. discriminate Hcall.
  - destruct (New_controller_failed H1 H2) as [_ L].
    rewrite L in Hcall. discriminate Hcall.
  - destruct (New_discovery_failed H1 H2 H3) as [R L].
    exists mgr, c. rewrite R. simpl.
    repeat split; try assumption. discriminate.
  - congruence.
Qed.

(** C10: when [New] succeeds, the manager of the returned operator is the one
  built by the only manager-construction call of the run, and the options of
  that call disable the cache for the list Contour, GatewayClass, Gateway,
  CustomResourceDefinition: four distinct objects, and an object is in the
  list exactly when it is one of the four. *)
Theorem New_uncached_objects
    (op : Operator Manager client_Client meta_RESTMapper logr_Logger) :
  fst result = Some op ->
  exists o rest,
    calls = CallNewManager Manager cliCfg o :: rest /\
    existsb (@is_CallNewManager _ _ _) rest = false /\
    controller_runtime_NewManager w cliCfg o = inl (op_manager op) /\
    manager.ClientDisableCacheFor o =
      [ operatorv1alpha1.Contour; gatewayv1alpha1.GatewayClass;
        gatewayv1alpha1.Gateway; apiextensionsv1.CustomResourceDefinition ] /\
    NoDup (manager.ClientDisableCacheFor o) /\
    length (manager.ClientDisableCacheFor o) = 4 /\
    (forall x, In x (manager.ClientDisableCacheFor o) <->
               x = operatorv1alpha1.Contour \/
               x = gatewayv1alpha1.GatewayClass \/
               x = gatewayv1alpha1.Gateway \/
               x = apiextensionsv1.CustomResourceDefinition).
Proof.
  intros Hop.
  destruct New_cases as [[e' H] | [(mgr & e' & H1 & H2) |
    [(mgr & c & e' & H1 & H2 & H3) | (mgr & c & rm & H1 & H2 & H3)]]].
  - destruct (New_manager_failed H) as [R _].
    rewrite R in Hop. discriminate Hop.
  - destruct (New_controller_failed H1 H2) as [R _].
    rewrite R in Hop. discriminate Hop.
  - destruct (New_discovery_failed H1 H2 H3) as [R _].
    rewrite R in Hop. discriminate Hop.
  - destruct (New_succeeded H1 H2 H3) as [R L].
    rewrite R in Hop. simpl in Hop. injection Hop as <-.
    exists opts, [callController mgr; callDiscovery].
    split; [ exact L | ].
    split; [ reflexivity | ].
    split; [ exact H1 | ].
    split; [ reflexivity | ].
    split.
    { repeat constructor; simpl; intuition discriminate. }
    split; [ reflexivity | ].
    intros x. simpl. intuition.
Qed.

End NewFacts.


(* ===================================================================== *)
(** ** Facts about Operator.Start *)
(* ===================================================================== *)

Lemma returns_of_app (a b : list Start.event) :
  Start.returns_of (a ++ b) = (Start.returns_of a ++ Start.returns_of b)%list.
Proof.
  induction a as [| ev a IH]; simpl.
  - reflexivity.
  - destruct ev; simpl; rewrite IH; reflexivity.
Qed.

Lemma In_returns_of (v : error) (sched : list Start.event) :
  In (Start.ManagerReturns v) sched <-> In v (Start.returns_of sched).
Proof.
  induction sched as [| ev sched IH]; simpl.
  - tauto.
  - destruct ev; simpl; rewrite <- IH;
      (intuition (discriminate || congruence)).
Qed.

Lemma In_Cancel (sched : list Start.event) :
  In Start.Cancel sched <-> existsb Start.is_Cancel sched = true.
Proof.
  rewrite existsb_exists. split.
  - intros H. exists Start.Cancel. split; [ exact H | reflexivity ].
  - intros [ev [H E]]. destruct ev; try discriminate E. exact H.
Qed.

Lemma In_SelectDone (sched : list Start.event) :
  In Start.SelectDone sched <-> existsb Start.is_SelectDone sched = true.
Proof.
  rewrite existsb_exists. split.
  - intros H. exists Start.SelectDone. split; [ exact H | reflexivity ].
  - intros [ev [H E]]. destruct ev; try discriminate E. exact H.
Qed.

Lemma shape_init (ctx0 : bool) : Start.shape ctx0 [] (Start.init ctx0).
Proof.
  unfold Start.shape; simpl. rewrite orb_false_r. repeat split.
Qed.

Lemma step_shape (ctx0 : bool) (sched : list Start.event)
    (s s' : Start.state) (ev : Start.event) :
  Start.shape ctx0 sched s ->
  Start.step s ev = Some s' ->
  Start.shape ctx0 (sched ++ [ev]) s'.
Proof.
  destruct s as [m g d r]. unfold Start.shape, Start.step. simpl.
  intros [Hd Hs] Hstep.
  rewrite !existsb_app, returns_of_app.
  destruct ev, m, g; simpl in *; try discriminate Hstep; try contradiction;
    try (destruct d; try discriminate Hstep);
    injection Hstep as <-; simpl;
    rewrite ?orb_false_r, ?orb_true_r, ?app_nil_r;
    intuition (subst; simpl; try congruence);
    match goal with H : Start.returns_of _ = _ |- _ => rewrite H end;
    reflexivity.
Qed.

Lemma run_shape_from (ctx0 : bool) (sched : list Start.event) :
  forall (sched0 : list Start.event) (s0 s : Start.state),
    Start.shape ctx0 sched0 s0 ->
    Start.run s0 sched = Some s ->
    Start.shape ctx0 (sched0 ++ sched) s.
Proof.
  induction sched as [| ev sched IH]; intros sched0 s0 s H0 Hrun; simpl in Hrun.
  - injection Hrun as <-. rewrite app_nil_r. exact H0.
  - destruct (Start.step s0 ev) as [s1 |] eqn:Hstep; [ | discriminate Hrun ].
    replace (sched0 ++ ev :: sched)%list with ((sched0 ++ [ev]) ++ sched)%list
      by (rewrite <- app_assoc; reflexivity).
    apply (IH _ s1); [ | exact Hrun ].
    apply (step_shape _ H0 Hstep).
Qed.

Lemma run_shape (ctx0 : bool) (sched : list Start.event) (s : Start.state) :
  Start.run (Start.init ctx0) sched = Some s ->
  Start.shape ctx0 sched s.
Proof.
  intros Hrun. apply (run_shape_from sched (shape_init ctx0) Hrun).
Qed.

(** Once [Start] has returned, its result does not change. *)
Lemma returned_step (s s' : Start.state) (ev : Start.event) (r : error) :
  Start.main s = Start.Returned r ->
  Start.step s ev = Some s' ->
  Start.main s' = Start.Returned r.
Proof.
  destruct s as [m g d rs]; simpl; intros -> Hstep.
  destruct ev; simpl in Hstep; try discriminate Hstep.
  - injection Hstep as <-. reflexivity.
  - destruct g; try discriminate Hstep. injection Hstep as <-. reflexivity.
Qed.

Lemma returned_run (sched : list Start.event) :
  forall (s s' : Start.state) (r : error),
    Start.main s = Start.Returned r ->
    Start.run s sched = Some s' ->
    Start.main s' = Start.Returned r.
Proof.
  induction sched as [| ev sched IH]; intros s s' r Hret Hrun; simpl in Hrun.
  - injection Hrun as <-. exact Hret.
  - destruct (Start.step s ev) as [s1 |] eqn:Hstep; [ | discriminate Hrun ].
    apply (IH s1 s' r); [ | exact Hrun ].
    apply (returned_step _ _ Hret Hstep).
Qed.

(** Once [Start] has returned with nothing received, nothing is received
  later and the goroutine cannot finish: no receiver is left for its send. *)
Lemma abandoned_step (s s' : Start.state) (ev : Start.event) (r : error) :
  Start.main s = Start.Returned r ->
  Start.received s = [] ->
  Start.goroutine s <> Start.Finished ->
  Start.step s ev = Some s' ->
  Start.received s' = [] /\ Start.goroutine s' <> Start.Finished.
Proof.
  destruct s as [m g d rs]; simpl; intros -> -> Hg Hstep.
  destruct ev; simpl in Hstep; try discriminate Hstep.
  - injection Hstep as <-. simpl. split; [ reflexivity | exact Hg ].
  - destruct g; try discriminate Hstep. injection Hstep as <-. simpl.
    split; [ reflexivity | discriminate ].
Qed.

Lemma abandoned_run (sched : list Start.event) :
  forall (s s' : Start.state) (r : error),
    Start.main s = Start.Returned r ->
    Start.received s = [] ->
    Start.goroutine s <> Start.Finished ->
    Start.run s sched = Some s' ->
    Start.main s' = Start.Returned r /\
    Start.received s' = [] /\ Start.goroutine s' <> Start.Finished.
Proof.
  induction sched as [| ev sched IH]; intros s s' r Hret Hrec Hg Hrun;
    simpl in Hrun.
  - injection Hrun as <-. auto.
  - destruct (Start.step s ev) as [s1 |] eqn:Hstep; [ | discriminate Hrun ].
    destruct (abandoned_step _ _ Hret Hrec Hg Hstep) as [Hrec1 Hg1].
    apply (IH s1 s' r); auto.
    apply (returned_step _ _ Hret Hstep).
Qed.

Lemma In_SelectErr (sched : list Start.event) :
  In Start.SelectErr sched <-> existsb Start.is_SelectErr sched = true.
Proof.
  rewrite existsb_exists. split.
  - intros H. exists Start.SelectErr. split; [ exact H | reflexivity ].
  - intros [ev [H E]]. destruct ev; try discriminate E. exact H.
Qed.

Lemma no_returns (sched : list Start.event) :
  (forall v, ~ In (Start.ManagerReturns v) sched) <->
  Start.returns_of sched = [].
Proof.
  split.
  - intros Hnone.
    destruct (Start.returns_of sched) as [| v l] eqn:E; [ reflexivity | ].
    exfalso. apply (Hnone v). apply In_returns_of. rewrite E. left.
    reflexivity.
  - intros E v Hin. apply In_returns_of in Hin. rewrite E in Hin.
    destruct Hin.
Qed.

Lemma no_Cancel (sched : list Start.event) :
  ~ In Start.Cancel sched <-> existsb Start.is_Cancel sched = false.
Proof.
  rewrite In_Cancel. destruct (existsb Start.is_Cancel sched); split;
    congruence.
Qed.

(** With no slot, the slotted model is [Start.step]: no send completes
  without a receive, and every other event does what it does there. *)
Lemma slotted_unbuffered (s : Start.state) :
  Slotted.step Slotted.errChan_capacity (Slotted.lift s)
               Slotted.SendCompletes = None /\
  forall ev,
    Slotted.step Slotted.errChan_capacity (Slotted.lift s) (Slotted.Of ev) =
    Slotted.with_buffer [] (Start.step s ev).
Proof.
  split.
  - unfold Slotted.step. simpl. destruct (Start.goroutine s); reflexivity.
  - intros ev. destruct ev; reflexivity.
Qed.

(** C2, as the code has it: take any run of [Start] in which the manager's
  event loop has returned the error [e].  (1) While the context is not
  done, [Start] either has returned exactly [e], or it waits in the
  [select], where the cancellation case cannot be taken and the channel
  case makes it return exactly [e].  (2) If the context is done while
  [Start] still waits in the [select], both cases can be taken: the channel
  case returns exactly [e], the cancellation case returns nil.  (3) If
  [Start] has returned, it returned exactly [e], or else nil through the
  cancellation case with the context done.  (4) Once returned, the result
  does not change. *)
Theorem Start_returns_runtime_error
    (ctx0 : bool) (e : errobj) (sched : list Start.event) (s : Start.state) :
  Start.run (Start.init ctx0) sched = Some s ->
  In (Start.ManagerReturns (Some e)) sched ->
  (Start.ctxDone s = false ->
     Start.main s = Start.Returned (Some e) \/
     Start.main s = Start.AtSelect /\
     Start.step s Start.SelectDone = None /\
     exists s', Start.step s Start.SelectErr = Some s' /\
                Start.main s' = Start.Returned (Some e)) /\
  (Start.ctxDone s = true ->
   Start.main s = Start.AtSelect ->
     (exists s1, Start.step s Start.SelectErr = Some s1 /\
                 Start.main s1 = Start.Returned (Some e)) /\
     (exists s2, Start.step s Start.SelectDone = Some s2 /\
                 Start.main s2 = Start.Returned nil)) /\
  (forall r, Start.main s = Start.Returned r ->
     r = Some e \/
     (r = nil /\ Start.ctxDone s = true /\ In Start.SelectDone sched)) /\
  (forall r later s',
     Start.main s = Start.Returned r ->
     Start.run s later = Some s' ->
     Start.main s' = Start.Returned r).
Proof.
  intros Hrun Hret.
  pose proof (run_shape _ _ Hrun) as [_ Hs].
  apply In_returns_of in Hret.
  assert (Hlast : forall r later s',
             Start.main s = Start.Returned r ->
             Start.run s later = Some s' ->
             Start.main s' = Start.Returned r).
  { intros r later s' Hr Hlater. apply (returned_run _ _ Hr Hlater). }
  pose proof (In_SelectDone sched) as Hsd.
  destruct s as [m g d rs]; simpl in *.
  destruct m, g; try contradiction;
    repeat match goal with H : _ /\ _ |- _ => destruct H end;
    match goal with
    | H : Start.returns_of sched = [] |- _ =>
      rewrite H in Hret; destruct Hret
    | H : Start.returns_of sched = [_] |- _ =>
      rewrite H in Hret; destruct Hret as [E | []]
    end; subst.
  - (* in the select, the value waiting *)
    split; [ intros ->; right; repeat split; eexists; split; reflexivity | ].
    split; [ intros -> _; split; eexists; split; reflexivity | ].
    split; [ intros r [=] | exact Hlast ].
  - (* returned through the cancellation case *)
    split; [ intros Hd; congruence | ].
    split; [ intros _ [=] | ].
    split; [ intros r [= <-]; right; repeat split; try assumption;
             apply Hsd; assumption | exact Hlast ].
  - (* returned through the channel case *)
    split; [ intros _; left; reflexivity | ].
    split; [ intros _ [=] | ].
    split; [ intros r' [= <-]; left; reflexivity | exact Hlast ].
Qed.

(** C3, as the code has it: take any run of [Start] in which the context is
  done, on entry or by a later cancellation.  (1) If the manager's event
  loop has not returned so far, then: the caller's own remaining
  statements, with no step of the goroutine, make [Start] return nil with
  the goroutine still inside [o.manager.Start] and nothing received from
  [errChan]; if [Start] has returned, that is how it returned; and in the
  [select] the channel case cannot be taken.  (2) Whenever [Start] waits in
  the [select], the cancellation case can be taken; it returns nil at once
  and leaves the goroutine and [errChan] as they are, and afterwards
  nothing is ever received from [errChan] and the goroutine never
  finishes.  (3) If the manager's event loop has returned [v] while [Start]
  still waits in the [select], the channel case can be taken as well, and
  it returns [v], received from [errChan].  (4) If [Start] has returned, it
  returned nil with nothing received, or the value of the manager's event
  loop, received from [errChan]. *)
Theorem Start_cancelled_first
    (ctx0 : bool) (sched : list Start.event) (s : Start.state) :
  Start.run (Start.init ctx0) sched = Some s ->
  Start.ctxDone s = true ->
  ((forall v, ~ In (Start.ManagerReturns v) sched) ->
     (exists k s',
        Start.run s (skipn k [Start.MakeChan; Start.Go; Start.SelectDone]) =
          Some s' /\
        Start.main s' = Start.Returned nil /\
        Start.goroutine s' = Start.InManagerStart /\
        Start.received s' = []) /\
     (forall r, Start.main s = Start.Returned r ->
        r = nil /\ Start.goroutine s = Start.InManagerStart /\
        Start.received s = []) /\
     (Start.main s = Start.AtSelect ->
        Start.step s Start.SelectErr = None)) /\
  (Start.main s = Start.AtSelect ->
     exists s1,
       Start.step s Start.SelectDone = Some s1 /\
       Start.main s1 = Start.Returned nil /\
       Start.goroutine s1 = Start.goroutine s /\
       Start.received s1 = [] /\
       forall later s2,
         Start.run s1 later = Some s2 ->
         Start.main s2 = Start.Returned nil /\
         Start.received s2 = [] /\
         Start.goroutine s2 <> Start.Finished) /\
  (forall v, In (Start.ManagerReturns v) sched ->
     Start.main s = Start.AtSelect ->
     exists s2,
       Start.step s Start.SelectErr = Some s2 /\
       Start.main s2 = Start.Returned v /\
       Start.received s2 = [v]) /\
  (forall r, Start.main s = Start.Returned r ->
     (r = nil /\ Start.received s = [] /\
      Start.goroutine s <> Start.Finished) \/
     (In (Start.ManagerReturns r) sched /\ Start.received s = [r])).
Proof.
  intros Hrun Hdone.
  pose proof (run_shape _ _ Hrun) as [_ Hs].
  assert (Hin : forall v, In (Start.ManagerReturns v) sched <->
                          In v (Start.returns_of sched))
    by (intros v; apply In_returns_of).
  rewrite no_returns.
  destruct s as [m g d rs]; simpl in *. subst d.
  destruct m, g; try contradiction;
    repeat match goal with H : _ /\ _ |- _ => destruct H end; subst.
  - (* before make(chan error) *)
    split.
    { intros _. split; [ exists 0; eexists; repeat split | ].
      split; [ intros r [=] | intros [=] ]. }
    split; [ intros [=] | ].
    split; [ intros v _ [=] | intros r [=] ].
  - (* before the go statement *)
    split.
    { intros _. split; [ exists 1; eexists; repeat split | ].
      split; [ intros r [=] | intros [=] ]. }
    split; [ intros [=] | ].
    split; [ intros v _ [=] | intros r [=] ].
  - (* in the select, the manager running *)
    split.
    { intros _. split; [ exists 2; eexists; repeat split | ].
      split; [ intros r [=] | intros _; reflexivity ]. }
    split.
    { intros _. eexists. split; [ reflexivity | ].
      repeat split.
      all: apply (abandoned_run later) with (r := nil) in H;
        [ | reflexivity | reflexivity | discriminate ];
        destruct H as (A & B & C); assumption. }
    split; [ | intros r [=] ].
    intros v Hv _. apply Hin in Hv.
    match goal with H : Start.returns_of sched = _ |- _ =>
      rewrite H in Hv end.
    destruct Hv.
  - (* in the select, the value waiting *)
    split.
    { intros E. congruence. }
    split.
    { intros _. eexists. split; [ reflexivity | ].
      repeat split.
      all: apply (abandoned_run later) with (r := nil) in H;
        [ | reflexivity | reflexivity | discriminate ];
        destruct H as (A & B & C); assumption. }
    split; [ | intros r [=] ].
    intros v0 Hv _. apply Hin in Hv.
    match goal with H : Start.returns_of sched = _ |- _ =>
      rewrite H in Hv end.
    destruct Hv as [<- | []].
    eexists. repeat split.
  - (* returned through the cancellation case, the manager running *)
    split.
    { intros _. split; [ exists 3; eexists; repeat split | ].
      split; [ intros r' [= <-]; repeat split | intros [=] ]. }
    split; [ intros [=] | ].
    split; [ intros v _ [=] | ].
    intros r' [= <-]. left. repeat split. discriminate.
  - (* returned through the cancellation case, the value waiting *)
    split.
    { intros E. congruence. }
    split; [ intros [=] | ].
    split; [ intros v0 _ [=] | ].
    intros r' [= <-]. left. repeat split. discriminate.
  - (* returned through the channel case *)
    split.
    { intros E. congruence. }
    split; [ intros [=] | ].
    split; [ intros v0 _ [=] | ].
    intros r' [= <-]. right. split; [ | reflexivity ].
    apply Hin.
    match goal with H : Start.returns_of sched = _ |- _ => rewrite H end.
    left. reflexivity.
Qed.

(** C8: take any run of [Start] in which the manager's event loop has
  returned nil, whether the context is cancelled or not, before or after.
  Then [Start] either has returned nil, or it waits in the [select], where
  the channel case can be taken and returns nil, and the cancellation case
  can be taken exactly when the context is done and returns nil as well.
  Once returned, the result stays nil.  Every run that left the [select]
  through the cancellation case has returned nil too: the two results are
  the same value. *)
Theorem Start_clean_exit_returns_nil
    (ctx0 : bool) (sched : list Start.event) (s : Start.state) :
  Start.run (Start.init ctx0) sched = Some s ->
  In (Start.ManagerReturns nil) sched ->
  (Start.main s = Start.Returned nil \/
   Start.main s = Start.AtSelect /\
   (exists s', Start.step s Start.SelectErr = Some s' /\
               Start.main s' = Start.Returned nil) /\
   (Start.ctxDone s = true ->
      exists s', Start.step s Start.SelectDone = Some s' /\
                 Start.main s' = Start.Returned nil) /\
   (Start.ctxDone s = false -> Start.step s Start.SelectDone = None)) /\
  (forall r later s',
     Start.main s = Start.Returned r ->
     Start.run s later = Some s' ->
     Start.main s' = Start.Returned nil) /\
  (forall ctx1 stopped t,
     Start.run (Start.init ctx1) stopped = Some t ->
     In Start.SelectDone stopped ->
     Start.main t = Start.Returned nil).
Proof.
  intros Hrun Hret.
  assert (Hmain : Start.main s = Start.Returned nil \/
                  Start.main s = Start.AtSelect /\
                  Start.goroutine s = Start.AtSend nil).
  { pose proof (run_shape _ _ Hrun) as [_ Hs].
    apply In_returns_of in Hret.
    destruct s as [m g d rs]; simpl in *.
    destruct m, g; try contradiction;
      repeat match goal with H : _ /\ _ |- _ => destruct H end;
      match goal with
      | H : Start.returns_of sched = [] |- _ =>
        rewrite H in Hret; destruct Hret
      | H : Start.returns_of sched = [_] |- _ =>
        rewrite H in Hret; destruct Hret as [E | []]
      end; subst; auto. }
  split; [ | split ].
  - destruct Hmain as [Hm | [Hm Hg]]; [ left; exact Hm | right ].
    destruct s as [m g d rs]; simpl in *. subst m g.
    split; [ reflexivity | ].
    split; [ eexists; split; reflexivity | ].
    split; intros ->; [ eexists; split; reflexivity | reflexivity ].
  - intros r later s' Hr Hlater.
    destruct Hmain as [Hm | [Hm _]]; [ | congruence ].
    apply (returned_run _ _ Hm Hlater).
  - intros ctx1 stopped t Ht Hin.
    pose proof (run_shape _ _ Ht) as [_ Hs].
    apply In_SelectDone in Hin.
    destruct t as [m g d rs]; simpl in *.
    destruct m, g; try contradiction;
      repeat match goal with H : _ /\ _ |- _ => destruct H end;
      congruence.
Qed.

(** C7, as the code has it: in every state [Start] can reach, (1) if the
  caller is at the [go] statement, that statement can be executed whatever
  the manager does, and it takes the caller on to the [select] with the
  manager's event loop running in the goroutine; (2) two execution contexts
  are live exactly while the caller waits in the [select]; (3) the manager
  has returned at most once, at most one value was put on [errChan],
  counting the one waiting in a blocked send and the one received, and that
  value is what the manager returned; (4) if [Start] has returned, it
  returned nil or the one value received; (5) [errChan] has no slot: the
  send never completes on its own, the run is the run of the slotted model
  with the capacity of [make(chan error)], and the goroutine has finished
  only if the channel case of the [select] received its value. *)
Theorem Start_two_contexts_one_value
    (ctx0 : bool) (sched : list Start.event) (s : Start.state) :
  Start.run (Start.init ctx0) sched = Some s ->
  (Start.main s = Start.AtGo ->
     exists s', Start.step s Start.Go = Some s' /\
                Start.main s' = Start.AtSelect /\
                Start.goroutine s' = Start.InManagerStart) /\
  (Start.live_contexts s = 2 <-> Start.main s = Start.AtSelect) /\
  length (Start.returns_of sched) <= 1 /\
  length (Start.received s) + length (Start.offered s) <= 1 /\
  (forall v, In v (Start.received s) \/ In v (Start.offered s) ->
             In (Start.ManagerReturns v) sched) /\
  (forall r, Start.main s = Start.Returned r ->
             r = nil \/ Start.received s = [r]) /\
  Slotted.errChan_capacity = 0 /\
  Slotted.step Slotted.errChan_capacity (Slotted.lift s)
               Slotted.SendCompletes = None /\
  (forall ev,
     Slotted.step Slotted.errChan_capacity (Slotted.lift s) (Slotted.Of ev) =
     Slotted.with_buffer [] (Start.step s ev)) /\
  (Start.goroutine s = Start.Finished ->
     In Start.SelectErr sched /\
     exists r, Start.main s = Start.Returned r /\ Start.received s = [r]).
Proof.
  intros Hrun.
  pose proof (run_shape _ _ Hrun) as [_ Hs].
  assert (Hin : forall v, In (Start.ManagerReturns v) sched <->
                          In v (Start.returns_of sched))
    by (intros v; apply In_returns_of).
  destruct (slotted_unbuffered s) as [Hsend Hsame].
  assert (Hfin : Start.goroutine s = Start.Finished ->
                 In Start.SelectErr sched /\
                 exists r, Start.main s = Start.Returned r /\
                           Start.received s = [r]).
  { intros Hg. rewrite In_SelectErr.
    destruct s as [m g d rs]; simpl in *. subst g.
    destruct m; try contradiction.
    destruct Hs as (A & _ & _ & B). split; [ exact B | ].
    exists r. split; [ reflexivity | exact A ]. }
  assert (Hrest :
    (Start.main s = Start.AtGo ->
       exists s', Start.step s Start.Go = Some s' /\
                  Start.main s' = Start.AtSelect /\
                  Start.goroutine s' = Start.InManagerStart) /\
    (Start.live_contexts s = 2 <-> Start.main s = Start.AtSelect) /\
    length (Start.returns_of sched) <= 1 /\
    length (Start.received s) + length (Start.offered s) <= 1 /\
    (forall v, In v (Start.received s) \/ In v (Start.offered s) ->
               In (Start.ManagerReturns v) sched) /\
    (forall r, Start.main s = Start.Returned r ->
               r = nil \/ Start.received s = [r])).
  { clear Hsend Hsame Hfin.
    destruct s as [m g d rs];
      unfold Start.live_contexts, Start.main_live, Start.goroutine_live,
        Start.offered; simpl in *.
    destruct m, g; try contradiction;
      repeat match goal with H : _ /\ _ |- _ => destruct H end; subst;
      match goal with
      | H : Start.returns_of sched = _ |- _ => rewrite H in *
      end;
      simpl;
      (split; [ solve [ intros [=] | intros _; eexists; repeat split ] | ]);
      (split; [ split; solve [ intros [=] | intros _; reflexivity ] | ]);
      (split; [ lia | ]);
      (split; [ lia | ]);
      (split; [ intros x; rewrite Hin; simpl; tauto | ]);
      intros r' [= <-]; auto. }
  destruct Hrest as (A & B & C & D & E & F).
  repeat (split; [ assumption | ]).
  split; [ reflexivity | ].
  split; [ exact Hsend | ].
  split; [ exact Hsame | exact Hfin ].
Qed.

(* ===================================================================== *)
(** ** The statements on the sample worlds *)
(* ===================================================================== *)

Lemma GatewayAPIResources_same_group_version_sample :
  let r1 := schema.mkGroupVersionResource "networking.x-k8s.io" "v1alpha1" "gateways" in
  let r2 := schema.mkGroupVersionResource "networking.x-k8s.io" "v1alpha1" "tlsroutes" in
  In r1 (GatewayAPIResources Sample.gv) /\
  In r2 (GatewayAPIResources Sample.gv) /\
  schema.Group r1 = "networking.x-k8s.io" /\
  schema.Version r1 = "v1alpha1" /\
  schema.Group r1 = schema.Group r2 /\
  schema.Version r1 = schema.Version r2.
Proof.
  intros r1 r2.
  assert (H1 : In r1 (GatewayAPIResources Sample.gv)) by (simpl; tauto).
  assert (H2 : In r2 (GatewayAPIResources Sample.gv)) by (simpl; tauto).
  split; [ exact H1 | split; [ exact H2 | ] ].
  destruct (@GatewayAPIResources_same_group_version Sample.gv r1 r2 H1 H2)
    as (A & B & C & D & _).
  repeat split; assumption.
Defined.


(** C5: [New] on a cluster where the manager is built, the controller is
  registered and discovery fails with the error "connection refused".  The
  claim has that error come back under the discovery context.  [New]
  returns a nil operator and the error itself: its message does not start
  with the discovery context, and there is nothing to unwrap.  On the same
  inputs a failing manager or controller call comes back under its phase
  prefix. *)
Lemma New_discovery_error_without_context :
  apiutil_NewDiscoveryRESTMapper Sample.discoveryFails Sample.cliCfg =
    inr Sample.refused /\
  Sample.result Sample.discoveryFails = (None, Some Sample.refused) /\
  length (Sample.calls Sample.discoveryFails) = 3 /\
  ~ (exists err,
       snd (Sample.result Sample.discoveryFails) = Some err /\
       (String.prefix "failed to create manager/discovery: " (Error err) = true \/
        Unwrap err = Some Sample.refused)) /\
  Sample.result Sample.managerFails =
    (None,
     Some (wrapError "failed to create manager: scheme is not set"
                     Sample.noScheme)) /\
  Sample.result Sample.controllerFails =
    (None,
     Some (wrapError
             "failed to create contour controller: controller already registered"
             Sample.duplicate)).
Proof.
  split; [ reflexivity | ].
  split; [ reflexivity | ].
  split; [ reflexivity | ].
  split; [ | split; reflexivity ].
  intros [err [Herr [Hp | Hu]]];
    injection Herr as <-; discriminate.
Qed.

Lemma New_discovery_failure_verbatim_sample :
  controller_runtime_NewManager Sample.discoveryFails Sample.cliCfg
    (mgrOpts tt Sample.opCfg) = inl 1 /\
  controller_New Sample.discoveryFails 1
    {| controller.ContourImage := config.ContourImage Sample.opCfg;
       controller.EnvoyImage := config.EnvoyImage Sample.opCfg |} = inl 2 /\
  apiutil_NewDiscoveryRESTMapper Sample.discoveryFails Sample.cliCfg =
    inr Sample.refused /\
  Sample.result Sample.discoveryFails = (None, Some Sample.refused).
Proof.
  assert (H1 : controller_runtime_NewManager Sample.discoveryFails
                 Sample.cliCfg (mgrOpts tt Sample.opCfg) = inl 1)
    by reflexivity.
  assert (H2 : controller_New Sample.discoveryFails 1
                 {| controller.ContourImage := config.ContourImage Sample.opCfg;
                    controller.EnvoyImage := config.EnvoyImage Sample.opCfg |}
               = inl 2) by reflexivity.
  assert (H3 : apiutil_NewDiscoveryRESTMapper Sample.discoveryFails
                 Sample.cliCfg = inr Sample.refused) by reflexivity.
  split; [ exact H1 | split; [ exact H2 | split; [ exact H3 | ] ] ].
  exact (proj1 (@New_discovery_failure_verbatim _ _ _ _ _ _ _
                  tt "" (fun l n => (l ++ n)%string)
                  (fun mgr : nat => mgr + 100)
                  Sample.discoveryFails Sample.cliCfg Sample.opCfg
                  1 2 Sample.refused H1 H2 H3)).
Defined.

(** Where discovery fails, the controller was registered before. *)
Lemma New_registers_before_discovery :
  apiutil_NewDiscoveryRESTMapper Sample.discoveryFails Sample.cliCfg =
    inr Sample.refused /\
  existsb (@is_CallControllerNew _ _ _)
          (Sample.calls Sample.discoveryFails) = true /\
  ~ (existsb (@is_CallControllerNew _ _ _)
             (Sample.calls Sample.discoveryFails) = false /\
     exists err,
       snd (Sample.result Sample.discoveryFails) = Some err /\
       Unwrap err = Some Sample.refused).
Proof.
  split; [ reflexivity | split; [ reflexivity | ] ].
  intros [H _]. discriminate H.
Qed.

Lemma New_discovery_follows_registration_sample :
  existsb (@is_CallNewDiscoveryRESTMapper _ _ _)
          (Sample.calls Sample.discoveryFails) = true /\
  apiutil_NewDiscoveryRESTMapper Sample.discoveryFails Sample.cliCfg =
    inr Sample.refused /\
  exists mgr c,
    controller_New Sample.discoveryFails mgr
      {| controller.ContourImage := config.ContourImage Sample.opCfg;
         controller.EnvoyImage := config.EnvoyImage Sample.opCfg |} = inl c /\
    fst (Sample.result Sample.discoveryFails) = None.
Proof.
  assert (H1 : existsb (@is_CallNewDiscoveryRESTMapper _ _ _)
                 (Sample.calls Sample.discoveryFails) = true) by reflexivity.
  assert (H2 : apiutil_NewDiscoveryRESTMapper Sample.discoveryFails
                 Sample.cliCfg = inr Sample.refused) by reflexivity.
  split; [ exact H1 | split; [ exact H2 | ] ].
  destruct (@New_discovery_follows_registration _ _ _ _ _ _ _
              tt "" (fun l n => (l ++ n)%string) (fun mgr : nat => mgr + 100)
              Sample.discoveryFails Sample.cliCfg Sample.opCfg
              Sample.refused H1 H2) as (mgr & c & _ & Hc & _ & R & _).
  exists mgr, c. split; [ exact Hc | exact R ].
Defined.

Lemma New_uncached_objects_sample :
  exists op,
    fst (Sample.result Sample.allGood) = Some op /\
    exists o rest,
      Sample.calls Sample.allGood = CallNewManager nat Sample.cliCfg o :: rest /\
      length (manager.ClientDisableCacheFor o) = 4.
Proof.
  eexists. split; [ reflexivity | ].
  destruct (@New_uncached_objects _ _ _ _ _ _ _
              tt "" (fun l n => (l ++ n)%string) (fun mgr : nat => mgr + 100)
              Sample.allGood Sample.cliCfg Sample.opCfg _ eq_refl)
    as (o & rest & L & _ & _ & _ & _ & N & _).
  exists o, rest. split; [ exact L | exact N ].
Defined.

(** The manager fails before any cancellation, the context is cancelled
  next, and [Start] returns nil. *)
Lemma Start_cancel_after_error_returns_nil :
  In (Start.ManagerReturns (Some Sample.refused)) Sample.failing /\
  ~ In Start.Cancel Sample.failing /\
  Start.run (Start.init false)
            (Sample.failing ++ [Start.Cancel; Start.SelectDone]) =
    Some (Sample.returned nil (Start.AtSend (Some Sample.refused)) true []) /\
  ~ (forall later s r,
       Start.run (Start.init false) (Sample.failing ++ later) = Some s ->
       Start.main s = Start.Returned r ->
       r = Some Sample.refused).
Proof.
  split; [ simpl; tauto | ].
  split; [ simpl; intuition discriminate | ].
  split; [ reflexivity | ].
  intros H.
  specialize (H [Start.Cancel; Start.SelectDone] _ nil eq_refl eq_refl).
  discriminate H.
Qed.

Lemma Start_returns_runtime_error_sample :
  Start.run (Start.init false) Sample.raced =
    Some (Sample.waiting (Start.AtSend (Some Sample.refused)) true) /\
  In (Start.ManagerReturns (Some Sample.refused)) Sample.raced /\
  (exists s1,
     Start.step (Sample.waiting (Start.AtSend (Some Sample.refused)) true)
                Start.SelectErr = Some s1 /\
     Start.main s1 = Start.Returned (Some Sample.refused)) /\
  (exists s2,
     Start.step (Sample.waiting (Start.AtSend (Some Sample.refused)) true)
                Start.SelectDone = Some s2 /\
     Start.main s2 = Start.Returned nil).
Proof.
  assert (H1 : Start.run (Start.init false) Sample.raced =
               Some (Sample.waiting (Start.AtSend (Some Sample.refused)) true))
    by reflexivity.
  assert (H2 : In (Start.ManagerReturns (Some Sample.refused)) Sample.raced)
    by (simpl; tauto).
  split; [ exact H1 | split; [ exact H2 | ] ].
  destruct (@Start_returns_runtime_error false Sample.refused Sample.raced _
              H1 H2) as (_ & Hrace & _).
  exact (Hrace eq_refl eq_refl).
Defined.

(** The context is cancelled before the manager returns anything, the
  manager fails next, and [Start] returns that error, received from
  [errChan]. *)
Lemma Start_error_after_cancel_is_returned :
  (forall v, ~ In (Start.ManagerReturns v) Sample.cancelled) /\
  In Start.Cancel Sample.cancelled /\
  Start.run (Start.init false)
            (Sample.cancelled ++
             [Start.ManagerReturns (Some Sample.refused); Start.SelectErr]) =
    Some (Sample.returned (Some Sample.refused) Start.Finished true
                          [Some Sample.refused]) /\
  ~ (forall later s r,
       Start.run (Start.init false) (Sample.cancelled ++ later) = Some s ->
       Start.main s = Start.Returned r ->
       r = nil /\ Start.received s = []).
Proof.
  split; [ intros v; simpl; intuition discriminate | ].
  split; [ simpl; tauto | ].
  split; [ reflexivity | ].
  intros H.
  specialize (H [Start.ManagerReturns (Some Sample.refused); Start.SelectErr]
                _ (Some Sample.refused) eq_refl eq_refl).
  destruct H as [H _]. discriminate H.
Qed.

Lemma Start_cancelled_first_sample :
  Start.run (Start.init false) Sample.cancelled =
    Some (Sample.waiting Start.InManagerStart true) /\
  Start.ctxDone (Sample.waiting Start.InManagerStart true) = true /\
  exists s1,
    Start.step (Sample.waiting Start.InManagerStart true) Start.SelectDone =
      Some s1 /\
    Start.main s1 = Start.Returned nil /\
    Start.goroutine s1 = Start.InManagerStart /\
    Start.received s1 = [].
Proof.
  assert (H1 : Start.run (Start.init false) Sample.cancelled =
               Some (Sample.waiting Start.InManagerStart true))
    by reflexivity.
  assert (H2 : Start.ctxDone (Sample.waiting Start.InManagerStart true) = true)
    by reflexivity.
  split; [ exact H1 | split; [ exact H2 | ] ].
  destruct (@Start_cancelled_first false Sample.cancelled _ H1 H2)
    as (_ & Hsel & _).
  destruct (Hsel eq_refl) as (s1 & A & B & C & D & _).
  exists s1. repeat split; assumption.
Defined.

Lemma Start_clean_exit_returns_nil_sample :
  Start.run (Start.init false) (Sample.exiting ++ [Start.Cancel]) =
    Some (Sample.waiting (Start.AtSend nil) true) /\
  In (Start.ManagerReturns nil) (Sample.exiting ++ [Start.Cancel]) /\
  (exists s',
     Start.step (Sample.waiting (Start.AtSend nil) true) Start.SelectErr =
       Some s' /\
     Start.main s' = Start.Returned nil) /\
  (exists s',
     Start.step (Sample.waiting (Start.AtSend nil) true) Start.SelectDone =
       Some s' /\
     Start.main s' = Start.Returned nil).
Proof.
  assert (H1 : Start.run (Start.init false) (Sample.exiting ++ [Start.Cancel])
               = Some (Sample.waiting (Start.AtSend nil) true))
    by reflexivity.
  assert (H2 : In (Start.ManagerReturns nil)
                  (Sample.exiting ++ [Start.Cancel]))
    by (simpl; tauto).
  split; [ exact H1 | split; [ exact H2 | ] ].
  destruct (@Start_clean_exit_returns_nil false _ _ H1 H2)
    as [[Hm | (_ & Herr & Hdone & _)] _].
  - discriminate Hm.
  - split; [ exact Herr | exact (Hdone eq_refl) ].
Defined.

(** On a single-slot channel the goroutine's send completes and the
  goroutine finishes while [Start] has received nothing; on the channel
  the source makes it cannot. *)
Lemma errChan_is_not_single_slot :
  Start.run (Start.init false) Sample.failing =
    Some (Sample.waiting (Start.AtSend (Some Sample.refused)) false) /\
  (exists s1,
     Slotted.step Slotted.single_slot
       (Slotted.lift (Sample.waiting (Start.AtSend (Some Sample.refused)) false))
       Slotted.SendCompletes = Some s1 /\
     Start.goroutine (Slotted.base s1) = Start.Finished /\
     Start.received (Slotted.base s1) = [] /\
     Slotted.buffer s1 = [Some Sample.refused]) /\
  Slotted.step Slotted.errChan_capacity
    (Slotted.lift (Sample.waiting (Start.AtSend (Some Sample.refused)) false))
    Slotted.SendCompletes = None /\
  Slotted.errChan_capacity <> Slotted.single_slot.
Proof.
  split; [ reflexivity | ].
  split; [ eexists; repeat split | ].
  split; [ reflexivity | discriminate ].
Qed.

Lemma Start_two_contexts_one_value_sample :
  Start.run (Start.init false) Sample.failing =
    Some (Sample.waiting (Start.AtSend (Some Sample.refused)) false) /\
  Start.live_contexts
    (Sample.waiting (Start.AtSend (Some Sample.refused)) false) = 2 /\
  Slotted.step Slotted.errChan_capacity
    (Slotted.lift (Sample.waiting (Start.AtSend (Some Sample.refused)) false))
    Slotted.SendCompletes = None.
Proof.
  assert (H1 : Start.run (Start.init false) Sample.failing =
               Some (Sample.waiting (Start.AtSend (Some Sample.refused)) false))
    by reflexivity.
  split; [ exact H1 | ].
  destruct (@Start_two_contexts_one_value false Sample.failing _ H1)
    as (_ & Hlive & _ & _ & _ & _ & _ & Hsend & _).
  split; [ exact (proj2 Hlive eq_refl) | exact Hsend ].
Defined.

(* ===================================================================== *)
(** ** More facts about New *)
(* ===================================================================== *)

Section NewCalls.

Variables rest_Config Scheme Manager Controller client_Client meta_RESTMapper
          logr_Logger : Type.
Variable GetOperatorScheme : Scheme.
Variable controller_runtime_Log : logr_Logger.
Variable WithName : logr_Logger -> string -> logr_Logger.
Variable GetClient : Manager -> client_Client.

Variable w : World rest_Config Scheme Manager Controller meta_RESTMapper.
Variable cliCfg : rest_Config.
Variable opCfg : config.Config.

Local Notation opts := (mgrOpts GetOperatorScheme opCfg).

Local Notation ctlCfg :=
  {| controller.ContourImage := config.ContourImage opCfg;
     controller.EnvoyImage := config.EnvoyImage opCfg |}.

Local Notation result :=
  (New_result GetOperatorScheme controller_runtime_Log WithName GetClient
              w cliCfg opCfg).

Local Notation calls :=
  (New_calls GetOperatorScheme controller_runtime_Log WithName GetClient
             w cliCfg opCfg).

Local Notation callManager := (CallNewManager Manager cliCfg opts).
Local Notation callController mgr :=
  (CallControllerNew rest_Config Scheme mgr ctlCfg).
Local Notation callDiscovery :=
  (CallNewDiscoveryRESTMapper Scheme Manager cliCfg).

(** The result and the calls of a run, by the outcomes of the three calls. *)
Ltac New_by_cases R L :=
  destruct (New_cases GetOperatorScheme w cliCfg opCfg)
    as [[?e ?H] | [(?mgr & ?e & ?H1 & ?H2) |
         [(?mgr & ?c & ?e & ?H1 & ?H2 & ?H3) |
          (?mgr & ?c & ?rm & ?H1 & ?H2 & ?H3)]]];
  [ destruct (New_manager_failed GetOperatorScheme controller_runtime_Log
                WithName GetClient w cliCfg opCfg H) as [R L]
  | destruct (New_controller_failed GetOperatorScheme controller_runtime_Log
                WithName GetClient w cliCfg opCfg H1 H2) as [R L]
  | destruct (New_discovery_failed GetOperatorScheme controller_runtime_Log
                WithName GetClient w cliCfg opCfg H1 H2 H3) as [R L]
  | destruct (New_succeeded GetOperatorScheme controller_runtime_Log
                WithName GetClient w cliCfg opCfg H1 H2 H3) as [R L] ].

(** X1: whatever the three calls return, the first call of [New] builds the
  manager, for the caller's cluster configuration and with options that
  carry [GetOperatorScheme()] and the leader-election flag, the
  leader-election id and the metrics address of [opCfg]; no second manager
  is built and at most two calls follow. *)
Theorem New_first_builds_manager :
  exists o rest,
    calls = CallNewManager Manager cliCfg o :: rest /\
    manager.Scheme_ o = GetOperatorScheme /\
    manager.LeaderElection o = config.LeaderElection opCfg /\
    manager.LeaderElectionID o = config.LeaderElectionID opCfg /\
    manager.MetricsBindAddress o = config.MetricsBindAddress opCfg /\
    existsb (@is_CallNewManager _ _ _) rest = false /\
    length rest <= 2.
Proof.
  exists opts.
  New_by_cases R L; rewrite L; eexists;
    (split; [ reflexivity | ]); simpl; repeat split; lia.
Qed.

(** X2: a controller registration found in the call log of [New] was made
  on the manager that [NewManager] returned in that run, with the contour
  and envoy images of [opCfg], and it is the only registration of the
  run. *)
Theorem New_registers_on_built_manager
    (mgr : Manager) (cfg : controller.Config) :
  In (CallControllerNew rest_Config Scheme mgr cfg) calls ->
  controller_runtime_NewManager w cliCfg opts = inl mgr /\
  controller.ContourImage cfg = config.ContourImage opCfg /\
  controller.EnvoyImage cfg = config.EnvoyImage opCfg /\
  length (filter (@is_CallControllerNew _ _ _) calls) = 1.
Proof.
  New_by_cases R L; rewrite L; simpl; intros Hin;
    repeat match goal with
           | H : _ \/ _ |- _ => destruct H
           | H : False |- _ => destruct H
           | H : CallNewManager _ _ _ = CallControllerNew _ _ _ _ |- _ =>
             discriminate H
           | H : CallNewDiscoveryRESTMapper _ _ _ = CallControllerNew _ _ _ _
             |- _ => discriminate H
           | H : CallControllerNew _ _ _ _ = CallControllerNew _ _ _ _ |- _ =>
             injection H as <- <-
           end;
    repeat split; assumption.
Qed.

(** X3: the operator returned by a successful [New] comes with a nil error
  and is wired from the values of that run: its manager is the one
  [NewManager] returned, on which the controller was registered; its client
  pairs that manager's client with the REST mapper discovery returned; its
  logger is the controller-runtime logger named contour_operator; its
  configuration is [opCfg]. *)
Theorem New_operator_wiring
    (op : Operator Manager client_Client meta_RESTMapper logr_Logger) :
  fst result = Some op ->
  snd result = None /\
  controller_runtime_NewManager w cliCfg opts = inl (op_manager op) /\
  (exists c, controller_New w (op_manager op) ctlCfg = inl c) /\
  (exists restMapper,
     apiutil_NewDiscoveryRESTMapper w cliCfg = inl restMapper /\
     op_client op = mkClient (GetClient (op_manager op)) restMapper) /\
  op_log op = WithName controller_runtime_Log "contour_operator" /\
  op_config op = opCfg.
Proof.
  New_by_cases R L; rewrite R; simpl; intros Hop;
    try discriminate Hop.
  injection Hop as <-. simpl.
  split; [ reflexivity | ].
  split; [ assumption | ].
  split; [ exists c; assumption | ].
  split; [ exists rm; split; [ assumption | reflexivity ] | ].
  split; reflexivity.
Qed.

(** X4: [New] succeeds exactly when the manager is built, the controller is
  registered on it and discovery succeeds; the failure of any of the three
  makes [New] fail. *)
Theorem New_succeeds_iff :
  (exists op, result = (Some op, None)) <->
  (exists mgr c restMapper,
     controller_runtime_NewManager w cliCfg opts = inl mgr /\
     controller_New w mgr ctlCfg = inl c /\
     apiutil_NewDiscoveryRESTMapper w cliCfg = inl restMapper).
Proof.
  split.
  - intros [op Hres].
    New_by_cases R L; rewrite R in Hres; try discriminate Hres.
    exists mgr, c, rm. repeat split; assumption.
  - intros (mgr & c & rm & H1 & H2 & H3).
    destruct (New_succeeded GetOperatorScheme controller_runtime_Log
                WithName GetClient w cliCfg opCfg H1 H2 H3) as [R _].
    eexists. exact R.
Qed.

(** X5: of the operator and the error that [New] returns, exactly one is
  nil. *)
Theorem New_exactly_one_nil :
  (fst result = None <-> snd result <> None) /\
  (fst result <> None <-> snd result = None).
Proof.
  New_by_cases R L; rewrite R; simpl;
    split; split; intros Hx; congruence.
Qed.

(** X6: an error returned by [New] is caused by the call that failed in
  that run: the returned error is the error of that call or wraps it
  directly, so that one [Unwrap] at most leads to it; at most one layer is
  added, and the returned message ends with the message of that error. *)
Theorem New_error_has_cause (err : errobj) :
  snd result = Some err ->
  exists cause,
    (controller_runtime_NewManager w cliCfg opts = inr cause \/
     (exists mgr,
        controller_runtime_NewManager w cliCfg opts = inl mgr /\
        controller_New w mgr ctlCfg = inr cause) \/
     apiutil_NewDiscoveryRESTMapper w cliCfg = inr cause) /\
    (err = cause \/ Unwrap err = Some cause) /\
    depth err <= S (depth cause) /\
    exists prefix, Error err = (prefix ++ Error cause)%string.
Proof.
  New_by_cases R L; rewrite R; simpl; intros Herr;
    try discriminate Herr; injection Herr as <-; exists e.
  - split; [ left; assumption | ].
    split; [ right; reflexivity | ].
    split; [ simpl; lia | ].
    eexists. reflexivity.
  - split; [ right; left; exists mgr; split; assumption | ].
    split; [ right; reflexivity | ].
    split; [ simpl; lia | ].
    eexists. reflexivity.
  - split; [ right; right; assumption | ].
    split; [ left; reflexivity | ].
    split; [ lia | ].
    exists EmptyString. reflexivity.
Qed.

End NewCalls.


(* ===================================================================== *)
(** ** More facts about Operator.Start *)
(* ===================================================================== *)

(** A goroutine blocked in its send after [Start] returned stays there. *)
Lemma blocked_step (s s' : Start.state) (ev : Start.event) (r v : error) :
  Start.main s = Start.Returned r ->
  Start.goroutine s = Start.AtSend v ->
  Start.step s ev = Some s' ->
  Start.goroutine s' = Start.AtSend v.
Proof.
  destruct s as [m g d rs]; simpl; intros -> -> Hstep.
  destruct ev; simpl in Hstep; try discriminate Hstep.
  injection Hstep as <-. reflexivity.
Qed.

Lemma blocked_run (later : list Start.event) :
  forall (s s' : Start.state) (r v : error),
    Start.main s = Start.Returned r ->
    Start.goroutine s = Start.AtSend v ->
    Start.run s later = Some s' ->
    Start.goroutine s' = Start.AtSend v.
Proof.
  induction later as [| ev later IH]; intros s s' r v Hm Hg Hrun;
    simpl in Hrun.
  - injection Hrun as <-. exact Hg.
  - destruct (Start.step s ev) as [s1 |] eqn:Hstep; [ | discriminate Hrun ].
    apply (IH s1 s' r v); [ | | exact Hrun ].
    + apply (returned_step _ _ Hm Hstep).
    + apply (blocked_step _ _ Hm Hg Hstep).
Qed.

(** The statements executed so far are those the program counters say. *)
Lemma step_executed (ctx0 : bool) (sched : list Start.event)
    (s s' : Start.state) (ev : Start.event) :
  Start.shape ctx0 sched s ->
  Schedule.caller_events sched = Schedule.executed s ->
  Start.step s ev = Some s' ->
  Schedule.caller_events (sched ++ [ev]) = Schedule.executed s'.
Proof.
  destruct s as [m g d r].
  unfold Start.shape, Start.step, Schedule.caller_events, Schedule.executed.
  simpl. intros [_ Hs] He Hstep.
  rewrite filter_app, He.
  destruct ev, m, g; simpl in *; try discriminate Hstep; try contradiction;
    try (destruct d; try discriminate Hstep);
    injection Hstep as <-; simpl; rewrite ?app_nil_r; reflexivity.
Qed.

Lemma run_executed_from (ctx0 : bool) (sched : list Start.event) :
  forall (sched0 : list Start.event) (s0 s : Start.state),
    Start.shape ctx0 sched0 s0 ->
    Schedule.caller_events sched0 = Schedule.executed s0 ->
    Start.run s0 sched = Some s ->
    Schedule.caller_events (sched0 ++ sched) = Schedule.executed s.
Proof.
  induction sched as [| ev sched IH]; intros sched0 s0 s H0 E0 Hrun;
    simpl in Hrun.
  - injection Hrun as <-. rewrite app_nil_r. exact E0.
  - destruct (Start.step s0 ev) as [s1 |] eqn:Hstep; [ | discriminate Hrun ].
    replace (sched0 ++ ev :: sched)%list with ((sched0 ++ [ev]) ++ sched)%list
      by (rewrite <- app_assoc; reflexivity).
    apply (IH _ s1); [ | | exact Hrun ].
    + apply (step_shape _ H0 Hstep).
    + apply (step_executed _ H0 E0 Hstep).
Qed.

(** X7: in every run of [Start], the statements of [Start] executed so far
  are, in order, a beginning of: make the channel, start the goroutine,
  take one case of the [select].  When [Start] has returned, all three were
  executed, each once: the goroutine was started before the [select] was
  entered, also when the context was cancelled on entry, and one case of
  the [select] was taken, once. *)
Theorem Start_program_order
    (ctx0 : bool) (sched : list Start.event) (s : Start.state) :
  Start.run (Start.init ctx0) sched = Some s ->
  (exists k sel,
     (sel = Start.SelectDone \/ sel = Start.SelectErr) /\
     Schedule.caller_events sched =
       firstn k [Start.MakeChan; Start.Go; sel]) /\
  (forall r, Start.main s = Start.Returned r ->
     exists sel,
       (sel = Start.SelectDone \/ sel = Start.SelectErr) /\
       Schedule.caller_events sched = [Start.MakeChan; Start.Go; sel]).
Proof.
  intros Hrun.
  assert (He : Schedule.caller_events sched = Schedule.executed s).
  { apply (run_executed_from sched (sched0 := []) (shape_init ctx0));
      [ reflexivity | exact Hrun ]. }
  rewrite He. destruct s as [m g d rs]; unfold Schedule.executed; simpl.
  split.
  - destruct m; [ exists 0 | exists 1 | exists 2 | exists 3 ];
      try (exists Start.SelectDone; split; [ left | ]; reflexivity).
    destruct g;
      [ exists Start.SelectDone | exists Start.SelectDone
      | exists Start.SelectDone | exists Start.SelectErr ];
      (split; [ tauto | reflexivity ]).
  - intros r ->.
    destruct g;
      [ exists Start.SelectDone | exists Start.SelectDone
      | exists Start.SelectDone | exists Start.SelectErr ];
      (split; [ tauto | reflexivity ]).
Qed.

(** X8: [Start] returns for one of two reasons only.  If it has returned
  [r], then either the context was cancelled (on entry or later), the
  cancellation case was taken and [r] is nil, or the manager's event loop
  returned [r], the channel case was taken and [r] was received from
  [errChan]. *)
Theorem Start_returns_for_a_reason
    (ctx0 : bool) (sched : list Start.event) (s : Start.state) (r : error) :
  Start.run (Start.init ctx0) sched = Some s ->
  Start.main s = Start.Returned r ->
  (r = nil /\ (ctx0 = true \/ In Start.Cancel sched) /\
   In Start.SelectDone sched /\ Start.received s = []) \/
  (In (Start.ManagerReturns r) sched /\ In Start.SelectErr sched /\
   Start.received s = [r]).
Proof.
  intros Hrun Hm.
  pose proof (run_shape _ _ Hrun) as [Hd Hs].
  rewrite In_Cancel, In_SelectDone, In_SelectErr, In_returns_of.
  destruct s as [m g d rs]; simpl in *. subst m.
  destruct g; try contradiction;
    repeat match goal with H : _ /\ _ |- _ => destruct H end; subst.
  - left. repeat split; try assumption.
    destruct ctx0; [ left; reflexivity | right; simpl in *; congruence ].
  - left. repeat split; try assumption.
    destruct ctx0; [ left; reflexivity | right; simpl in *; congruence ].
  - right. repeat split; try assumption.
    match goal with H : Start.returns_of sched = _ |- _ => rewrite H end.
    left. reflexivity.
Qed.

(** X9: there is no timeout.  While [Start] waits in the [select], no case
  can be taken exactly when the context was live on entry, was not
  cancelled since, and the manager's event loop has not returned. *)
Theorem Start_blocks_exactly_when
    (ctx0 : bool) (sched : list Start.event) (s : Start.state) :
  Start.run (Start.init ctx0) sched = Some s ->
  Start.main s = Start.AtSelect ->
  (Start.step s Start.SelectDone = None /\
   Start.step s Start.SelectErr = None) <->
  (ctx0 = false /\ ~ In Start.Cancel sched /\
   forall v, ~ In (Start.ManagerReturns v) sched).
Proof.
  intros Hrun Hm.
  pose proof (run_shape _ _ Hrun) as [Hd Hs].
  rewrite no_Cancel, no_returns.
  destruct s as [m g d rs]; simpl in *. subst m d.
  destruct g; try contradiction;
    repeat match goal with H : _ /\ _ |- _ => destruct H end.
  - destruct ctx0, (existsb Start.is_Cancel sched); simpl;
      (split; [ intros [A B] | intros (A & B & C) ]);
      repeat split; congruence.
  - destruct ctx0, (existsb Start.is_Cancel sched); simpl;
      (split; [ intros [A B] | intros (A & B & C) ]);
      repeat split; congruence.
Qed.

(** X10: when the context is done and the manager's event loop has returned
  [v] while [Start] waits in the [select], both cases can be taken: the
  cancellation case returns nil and the channel case returns [v].  Which
  result the caller gets is not decided by the order of the two events. *)
Theorem Start_race_either_result
    (ctx0 : bool) (sched : list Start.event) (s : Start.state) (v : error) :
  Start.run (Start.init ctx0) sched = Some s ->
  Start.main s = Start.AtSelect ->
  Start.ctxDone s = true ->
  In (Start.ManagerReturns v) sched ->
  exists s1 s2,
    Start.step s Start.SelectDone = Some s1 /\
    Start.main s1 = Start.Returned nil /\
    Start.received s1 = [] /\
    Start.step s Start.SelectErr = Some s2 /\
    Start.main s2 = Start.Returned v /\
    Start.received s2 = [v].
Proof.
  intros Hrun Hm Hdone Hret.
  pose proof (run_shape _ _ Hrun) as [_ Hs].
  apply In_returns_of in Hret.
  destruct s as [m g d rs]; simpl in *. subst m d.
  destruct g; try contradiction;
    repeat match goal with H : _ /\ _ |- _ => destruct H end;
    match goal with H : Start.returns_of sched = _ |- _ =>
      rewrite H in Hret end;
    simpl in Hret; [ destruct Hret | ].
  destruct Hret as [-> | []]. subst rs.
  eexists. eexists. repeat split.
Qed.

(** X11: once the cancellation case was taken, [Start] has returned nil and
  the value of the manager's event loop is lost: nothing is received from
  [errChan] then or at any later time, the goroutine never finishes, and if
  the manager has returned [v] the goroutine stays blocked in the send of
  [v] for ever. *)
Theorem Start_cancellation_abandons_goroutine
    (ctx0 : bool) (sched : list Start.event) (s : Start.state) :
  Start.run (Start.init ctx0) sched = Some s ->
  In Start.SelectDone sched ->
  Start.main s = Start.Returned nil /\
  ~ In Start.SelectErr sched /\
  forall later s',
    Start.run s later = Some s' ->
    Start.main s' = Start.Returned nil /\
    Start.received s' = [] /\
    Start.goroutine s' <> Start.Finished /\
    (forall v, In (Start.ManagerReturns v) sched ->
               Start.goroutine s' = Start.AtSend v).
Proof.
  intros Hrun Hsel.
  pose proof (run_shape _ _ Hrun) as [_ Hs].
  rewrite In_SelectErr. apply In_SelectDone in Hsel.
  destruct s as [m g d rs]; simpl in *.
  destruct m, g; try contradiction;
    repeat match goal with H : _ /\ _ |- _ => destruct H end;
    try congruence; subst.
  - split; [ reflexivity | split; [ congruence | ] ].
    intros later s' Hlater.
    pose proof Hlater as Hab.
    apply (abandoned_run later) with (r := nil) in Hab;
      [ | reflexivity | reflexivity | discriminate ].
    destruct Hab as (A & B & C).
    repeat split; try assumption.
    intros v Hv. apply In_returns_of in Hv.
    match goal with H : Start.returns_of sched = _ |- _ =>
      rewrite H in Hv end.
    destruct Hv.
  - split; [ reflexivity | split; [ congruence | ] ].
    intros later s' Hlater.
    pose proof Hlater as Hab.
    apply (abandoned_run later) with (r := nil) in Hab;
      [ | reflexivity | reflexivity | discriminate ].
    destruct Hab as (A & B & C).
    repeat split; try assumption.
    intros v0 Hv. apply In_returns_of in Hv.
    match goal with H : Start.returns_of sched = _ |- _ =>
      rewrite H in Hv end.
    destruct Hv as [<- | []].
    apply (blocked_run later) with (r := nil) (v := v) in Hlater;
      [ exact Hlater | reflexivity | reflexivity ].
Qed.


(** X13: the goroutine finishes exactly in the runs where the channel case
  of the [select] was taken; then [Start] has returned the value the
  manager's event loop returned, and that value is the one received from
  [errChan]. *)
Theorem Start_goroutine_finishes_iff
    (ctx0 : bool) (sched : list Start.event) (s : Start.state) :
  Start.run (Start.init ctx0) sched = Some s ->
  (Start.goroutine s = Start.Finished <-> In Start.SelectErr sched) /\
  (Start.goroutine s = Start.Finished ->
   exists r,
     Start.main s = Start.Returned r /\
     Start.received s = [r] /\
     In (Start.ManagerReturns r) sched).
Proof.
  intros Hrun.
  pose proof (run_shape _ _ Hrun) as [_ Hs].
  rewrite In_SelectErr.
  destruct s as [m g d rs]; simpl in *.
  destruct m, g; try contradiction;
    repeat match goal with H : _ /\ _ |- _ => destruct H end;
    (split; [ split; congruence | ]); try (intros [=]).
  exists r. split; [ reflexivity | ]. split; [ assumption | ].
  apply In_returns_of.
  match goal with H : Start.returns_of sched = _ |- _ => rewrite H end.
  left. reflexivity.
Qed.


(* ===================================================================== *)
(** ** Facts about the RBAC markers *)
(* ===================================================================== *)

(** X14: when the Gateway API group is networking.x-k8s.io, the role made of
  the markers lets the operator get, list, watch and update every resource
  of [GatewayAPIResources] and update its status, and lets it neither
  create nor delete any of them. *)
Theorem rbac_covers_GatewayAPIResources
    (gv : schema.GroupVersion) (r : schema.GroupVersionResource) :
  schema.gvGroup gv = "networking.x-k8s.io" ->
  In r (GatewayAPIResources gv) ->
  forallb (rbac.allowed (schema.Group r) (schema.Resource r))
          ["get"; "list"; "watch"; "update"] = true /\
  rbac.allowed (schema.Group r) (schema.Resource r ++ "/status") "update"
    = true /\
  rbac.allowed (schema.Group r) (schema.Resource r) "create" = false /\
  rbac.allowed (schema.Group r) (schema.Resource r) "delete" = false.
Proof.
  intros Hg Hin.
  destruct (In_GatewayAPIResources Hin) as [name [Hname ->]].
  simpl. rewrite Hg.
  simpl in Hname.
  destruct Hname as [<- | [<- | [<- | [<- | []]]]];
    repeat split; vm_compute; reflexivity.
Qed.

(** X15: on the two route kinds left out of [GatewayAPIResources], udproutes
  and tcproutes, the role made of the markers allows get, list and watch
  and no other verb. *)
Theorem rbac_excluded_routes_read_only (resource verb : string) :
  In resource ["udproutes"; "tcproutes"] ->
  (rbac.allowed "networking.x-k8s.io" resource verb = true <->
   In verb ["get"; "list"; "watch"]).
Proof.
  intros [<- | [<- | []]];
    unfold rbac.allowed, rbac.markers, rbac.grants; cbn;
    rewrite ?orb_false_r, !orb_true_iff, !String.eqb_eq;
    intuition (subst; auto).
Qed.


(* ===================================================================== *)
(** ** The further statements on the sample worlds *)
(* ===================================================================== *)

Lemma New_registers_on_built_manager_sample :
  In (CallControllerNew string unit 1
        {| controller.ContourImage := config.ContourImage Sample.opCfg;
           controller.EnvoyImage := config.EnvoyImage Sample.opCfg |})
     (Sample.calls Sample.allGood) /\
  controller_runtime_NewManager Sample.allGood Sample.cliCfg
    (mgrOpts tt Sample.opCfg) = inl 1 /\
  length (filter (@is_CallControllerNew _ _ _) (Sample.calls Sample.allGood))
    = 1.
Proof.
  assert (H : In (CallControllerNew string unit 1
                    {| controller.ContourImage :=
                         config.ContourImage Sample.opCfg;
                       controller.EnvoyImage :=
                         config.EnvoyImage Sample.opCfg |})
                 (Sample.calls Sample.allGood)) by (simpl; tauto).
  split; [ exact H | ].
  destruct (@New_registers_on_built_manager _ _ _ _ _ _ _
              tt "" (fun l n => (l ++ n)%string) (fun mgr : nat => mgr + 100)
              Sample.allGood Sample.cliCfg Sample.opCfg _ _ H)
    as (A & _ & _ & B).
  split; [ exact A | exact B ].
Defined.

Lemma New_operator_wiring_sample :
  exists op,
    fst (Sample.result Sample.allGood) = Some op /\
    snd (Sample.result Sample.allGood) = None /\
    op_log op = "contour_operator" /\
    op_config op = Sample.opCfg.
Proof.
  eexists. split; [ reflexivity | ].
  destruct (@New_operator_wiring _ _ _ _ _ _ _
              tt "" (fun l n => (l ++ n)%string) (fun mgr : nat => mgr + 100)
              Sample.allGood Sample.cliCfg Sample.opCfg _ eq_refl)
    as (A & _ & _ & _ & B & C).
  split; [ exact A | split; [ exact B | exact C ] ].
Defined.

Lemma New_error_has_cause_sample :
  snd (Sample.result Sample.controllerFails) =
    Some (wrapError
            "failed to create contour controller: controller already registered"
            Sample.duplicate) /\
  exists cause,
    (wrapError
       "failed to create contour controller: controller already registered"
       Sample.duplicate = cause \/
     Unwrap (wrapError
               "failed to create contour controller: controller already registered"
               Sample.duplicate) = Some cause) /\
    depth (wrapError
             "failed to create contour controller: controller already registered"
             Sample.duplicate) <= S (depth cause).
Proof.
  assert (H : snd (Sample.result Sample.controllerFails) =
              Some (wrapError
                      "failed to create contour controller: controller already registered"
                      Sample.duplicate)) by reflexivity.
  split; [ exact H | ].
  destruct (@New_error_has_cause _ _ _ _ _ _ _
              tt "" (fun l n => (l ++ n)%string) (fun mgr : nat => mgr + 100)
              Sample.controllerFails Sample.cliCfg Sample.opCfg _ H)
    as (cause & _ & B & D & _).
  exists cause. split; [ exact B | exact D ].
Defined.

Lemma Start_program_order_sample :
  Start.run (Start.init true) Sample.stopped =
    Some (Sample.returned nil Start.InManagerStart true []) /\
  exists sel,
    Schedule.caller_events Sample.stopped = [Start.MakeChan; Start.Go; sel].
Proof.
  assert (H : Start.run (Start.init true) Sample.stopped =
              Some (Sample.returned nil Start.InManagerStart true []))
    by reflexivity.
  split; [ exact H | ].
  destruct (@Start_program_order true Sample.stopped _ H) as [_ Hret].
  destruct (Hret nil eq_refl) as (sel & _ & E).
  exists sel. exact E.
Defined.

Lemma Start_returns_for_a_reason_sample :
  Start.run (Start.init false) Sample.failed =
    Some (Sample.returned (Some Sample.refused) Start.Finished false
                          [Some Sample.refused]) /\
  (In Start.SelectDone Sample.failed \/
   In (Start.ManagerReturns (Some Sample.refused)) Sample.failed).
Proof.
  assert (H : Start.run (Start.init false) Sample.failed =
              Some (Sample.returned (Some Sample.refused) Start.Finished false
                                    [Some Sample.refused])) by reflexivity.
  split; [ exact H | ].
  destruct (@Start_returns_for_a_reason false Sample.failed _
              (Some Sample.refused) H eq_refl)
    as [(_ & _ & A & _) | (B & _)]; [ left; exact A | right; exact B ].
Defined.

Lemma Start_blocks_exactly_when_sample :
  Start.run (Start.init false) [Start.MakeChan; Start.Go] =
    Some (Sample.waiting Start.InManagerStart false) /\
  (Start.step (Sample.waiting Start.InManagerStart false) Start.SelectDone
     = None /\
   Start.step (Sample.waiting Start.InManagerStart false) Start.SelectErr
     = None).
Proof.
  assert (H : Start.run (Start.init false) [Start.MakeChan; Start.Go] =
              Some (Sample.waiting Start.InManagerStart false))
    by reflexivity.
  split; [ exact H | ].
  apply (@Start_blocks_exactly_when false [Start.MakeChan; Start.Go] _ H
           eq_refl).
  split; [ reflexivity | ].
  split; [ | intros v ]; simpl; intuition discriminate.
Defined.

Lemma Start_race_either_result_sample :
  Start.run (Start.init false) Sample.raced =
    Some (Sample.waiting (Start.AtSend (Some Sample.refused)) true) /\
  In (Start.ManagerReturns (Some Sample.refused)) Sample.raced /\
  exists s1 s2,
    Start.step (Sample.waiting (Start.AtSend (Some Sample.refused)) true)
               Start.SelectDone = Some s1 /\
    Start.main s1 = Start.Returned nil /\
    Start.step (Sample.waiting (Start.AtSend (Some Sample.refused)) true)
               Start.SelectErr = Some s2 /\
    Start.main s2 = Start.Returned (Some Sample.refused).
Proof.
  assert (H1 : Start.run (Start.init false) Sample.raced =
               Some (Sample.waiting (Start.AtSend (Some Sample.refused)) true))
    by reflexivity.
  assert (H2 : In (Start.ManagerReturns (Some Sample.refused)) Sample.raced)
    by (simpl; tauto).
  split; [ exact H1 | split; [ exact H2 | ] ].
  destruct (@Start_race_either_result false Sample.raced _
              (Some Sample.refused) H1 eq_refl eq_refl H2)
    as (s1 & s2 & A & B & _ & C & D & _).
  exists s1, s2. repeat split; assumption.
Defined.

Lemma Start_cancellation_abandons_goroutine_sample :
  Start.run (Start.init false) Sample.dropped =
    Some (Sample.returned nil (Start.AtSend (Some Sample.refused)) true []) /\
  In Start.SelectDone Sample.dropped /\
  Start.main (Sample.returned nil (Start.AtSend (Some Sample.refused)) true [])
    = Start.Returned nil /\
  ~ In Start.SelectErr Sample.dropped.
Proof.
  assert (H1 : Start.run (Start.init false) Sample.dropped =
               Some (Sample.returned nil (Start.AtSend (Some Sample.refused))
                                     true [])) by reflexivity.
  assert (H2 : In Start.SelectDone Sample.dropped) by (simpl; tauto).
  split; [ exact H1 | split; [ exact H2 | ] ].
  destruct (@Start_cancellation_abandons_goroutine false Sample.dropped _
              H1 H2) as (A & B & _).
  split; [ exact A | exact B ].
Defined.


Lemma Start_goroutine_finishes_iff_sample :
  Start.run (Start.init false) Sample.failed =
    Some (Sample.returned (Some Sample.refused) Start.Finished false
                          [Some Sample.refused]) /\
  In Start.SelectErr Sample.failed.
Proof.
  assert (H : Start.run (Start.init false) Sample.failed =
              Some (Sample.returned (Some Sample.refused) Start.Finished false
                                    [Some Sample.refused])) by reflexivity.
  split; [ exact H | ].
  destruct (@Start_goroutine_finishes_iff false Sample.failed _ H)
    as [[A _] _].
  exact (A eq_refl).
Defined.

Lemma rbac_covers_GatewayAPIResources_sample :
  let r := schema.mkGroupVersionResource "networking.x-k8s.io" "v1alpha1"
                                         "gateways" in
  schema.gvGroup Sample.gv = "networking.x-k8s.io" /\
  In r (GatewayAPIResources Sample.gv) /\
  rbac.allowed "networking.x-k8s.io" "gateways/status" "update" = true /\
  rbac.allowed "networking.x-k8s.io" "gateways" "delete" = false.
Proof.
  intros r.
  assert (H1 : schema.gvGroup Sample.gv = "networking.x-k8s.io")
    by reflexivity.
  assert (H2 : In r (GatewayAPIResources Sample.gv)) by (simpl; tauto).
  split; [ exact H1 | split; [ exact H2 | ] ].
  destruct (@rbac_covers_GatewayAPIResources Sample.gv r H1 H2)
    as (_ & A & _ & B).
  split; [ exact A | exact B ].
Defined.

Lemma rbac_excluded_routes_read_only_sample :
  In "udproutes" ["udproutes"; "tcproutes"] /\
  (rbac.allowed "networking.x-k8s.io" "udproutes" "update" = true <->
   In "update" ["get"; "list"; "watch"]).
Proof.
  assert (H : In "udproutes" ["udproutes"; "tcproutes"]) by (simpl; tauto).
  split; [ exact H | ].
  exact (@rbac_excluded_routes_read_only "udproutes" "update" H).
Defined.
